(** * Hotel ADR dashboard (app.py): a shallow embedding and its properties

    The script loads a reservation table, derives a room category, filters the
    table by a date range and renders one of five charts.  The embedding
    follows the script top to bottom:

    - [Py]      Python values the script computes with (floats, strings);
    - [Pandas]  the table operations the script calls ([cut], [groupby],
                [sort_values], [head], boolean-mask indexing);
    - [App]     the script itself, as a state-passing program over a store of
                table objects and a log of what is shown to the user.

    Numbers.  Python floats are modelled as exact rationals plus NaN
    ([Py.float]); rounding of binary64 arithmetic is not modelled.

    Library defaults.  The script passes neither [right] nor [include_lowest]
    to its first [pd.cut] (so [right=True], [include_lowest=False]), no
    [kind] to [sort_values] (so [quicksort]) and no [observed] to [groupby].
    The last default differs between library versions and is a parameter of
    the model. *)

From Stdlib Require Import ZArith QArith Qminmax Qround Qabs List String Ascii.
From Stdlib Require Import Lia Lqa Bool Sorted Permutation.
From stdpp Require Import base gmap strings list pretty.

Local Open Scope string_scope.

(* ===================================================================== *)
(** * Python values *)
(* ===================================================================== *)

Module Py.

(** A float cell: a finite number or NaN ([None]). *)
Definition float : Type := option Q.

Definition NaN : float := None.

Definition Qltb (a b : Q) : bool := negb (Qle_bool b a).

(** Comparisons with NaN are false. *)
Definition flt (a b : float) : bool :=
  match a, b with
  | Some x, Some y => Qltb x y
  | _, _ => false
  end.

Definition fgt (a b : float) : bool := flt b a.

Definition fmul (a b : float) : float :=
  match a, b with
  | Some x, Some y => Some (x * y)%Q
  | _, _ => None
  end.

Definition fsub (a b : float) : float :=
  match a, b with
  | Some x, Some y => Some (x - y)%Q
  | _, _ => None
  end.

(** [int(x)]: truncation towards zero. *)
Definition int (x : Q) : Z := Z.quot (Qnum x) (Zpos (Qden x)).

(** [round(x, 2)]: nearest multiple of 1/100, ties to even. *)
Definition round2 (x : Q) : Q :=
  let y := (x * 100)%Q in
  let z := Qfloor y in
  let frac := (y - inject_Z z)%Q in
  let up :=
    if Qltb frac (1 # 2) then false
    else if Qltb (1 # 2) frac then true
    else Z.odd z in
  (inject_Z (if up then z + 1 else z) / 100)%Q.

Definition fround2 (x : float) : float := round2 <$> x.

(** [str.lower], on the bytes of the text: the letters A-Z are mapped to a-z.
    The other characters are left as they are; no character outside ASCII
    lower-cases to a letter of "shower", "bathtub" or "bath tub", so the
    tests of the room classifier are not affected. *)
Definition lower_ascii (c : ascii) : ascii :=
  let n := N_of_ascii c in
  if ((65 <=? n) && (n <=? 90))%N then ascii_of_N (n + 32) else c.

Fixpoint lower (s : string) : string :=
  match s with
  | EmptyString => EmptyString
  | String c r => String (lower_ascii c) (lower r)
  end.

(** [pat in s]: [pat] occurs in [s] as a contiguous substring. *)
Fixpoint contains (pat s : string) : bool :=
  String.prefix pat s ||
  match s with
  | EmptyString => false
  | String _ r => contains pat r
  end.

(** [x in xs] for a list of strings. *)
Definition str_in (x : string) (xs : list string) : bool :=
  existsb (String.eqb x) xs.

(** [s.replace(old, new)] for a non-empty [old]: the occurrences of [old] are
    replaced from left to right, without overlap.  [skip] counts the
    characters of an occurrence that are still to be passed over. *)
Fixpoint replace_from (old new : string) (skip : nat) (s : string) : string :=
  match s with
  | EmptyString => EmptyString
  | String c r =>
      match skip with
      | S k => replace_from old new k r
      | O =>
          if String.prefix old s
          then new +:+ replace_from old new (String.length old - 1) r
          else String c (replace_from old new 0 r)
      end
  end.

Definition replace (old new s : string) : string := replace_from old new 0 s.

End Py.

(* ===================================================================== *)
(** * Dates and reservation rows *)
(* ===================================================================== *)

(** The month of a parsed date is one of the twelve. *)
Inductive month : Type :=
| January | February | March | April | May | June
| July | August | September | October | November | December.

Definition month_number (m : month) : Z :=
  match m with
  | January => 1 | February => 2 | March => 3 | April => 4
  | May => 5 | June => 6 | July => 7 | August => 8
  | September => 9 | October => 10 | November => 11 | December => 12
  end.

(** [datetime.date]: compared by (year, month, day). *)
Record date : Type := mkdate { d_year : Z; d_month : month; d_day : Z }.

Definition date_compare (a b : date) : comparison :=
  match (d_year a ?= d_year b)%Z with
  | Eq => match (month_number (d_month a) ?= month_number (d_month b))%Z with
          | Eq => (d_day a ?= d_day b)%Z
          | c => c
          end
  | c => c
  end.

(** [a <= b] on dates. *)
Definition date_leb (a b : date) : bool :=
  match date_compare a b with Gt => false | _ => true end.

(** The twelve labels of [strftime('%b')], in calendar order. *)
Definition MONTHS : list string :=
  ["Jan"; "Feb"; "Mar"; "Apr"; "May"; "Jun"; "Jul"; "Aug"; "Sep"; "Oct"; "Nov"; "Dec"].

(** [strftime('%b')]. *)
Definition strftime_b (d : date) : string :=
  match d_month d with
  | January => "Jan" | February => "Feb" | March => "Mar" | April => "Apr"
  | May => "May" | June => "Jun" | July => "Jul" | August => "Aug"
  | September => "Sep" | October => "Oct" | November => "Nov" | December => "Dec"
  end.

(** One row of the loaded table after lines 10-18: the parsed cells.
    [check_in] is [None] for NaT, [ADR] and [total_price] are NaN where the
    text did not parse, [night] has been filled with 1 where missing. *)
Record Row : Type := mkRow {
  check_in : option date;
  ADR : Py.float;
  total_price : Py.float;
  room : string;
  night : Q;
  booking_reference : option string
}.

(** Line 16, before the conversion to a number: the currency prefix and the
    thousands separators are taken out of the text of a Total price cell. *)
Definition strip_price (text : string) : string :=
  Py.replace "," "" (Py.replace "THB " "" text).

Definition Month (r : Row) : option string := strftime_b <$> check_in r.
Definition Day (r : Row) : option Z := d_day <$> check_in r.

(* ===================================================================== *)
(** * The room classifier (lines 21-29) *)
(* ===================================================================== *)

Definition SHOWER : string := "Deluxe Twin Room with Shower".
Definition BATHTUB : string := "Deluxe Twin Room with Bathtub".
Definition OTHER : string := "Other".

Definition map_room_type (room : string) : string :=
  let room := Py.lower room in
  if Py.contains "shower" room then SHOWER
  else if Py.contains "bathtub" room || Py.contains "bath tub" room then BATHTUB
  else OTHER.

(** Line 29: the Room Type column. *)
Definition Room_Type (r : Row) : string := map_room_type (room r).

(* ===================================================================== *)
(** * The table operations the script calls *)
(* ===================================================================== *)

Module Pandas.
Import Py.

(** A call either returns or raises [ValueError]. *)
Inductive result (A : Type) : Type :=
| Ok (a : A)
| ValueError (msg : string).
Arguments Ok {A} a.
Arguments ValueError {A} msg.

(** ** Series reductions: NaN cells are skipped *)

Definition dropna (xs : list float) : list Q := omap id xs.

Definition series_min (xs : list float) : float :=
  match dropna xs with
  | [] => NaN
  | x :: r => Some (fold_left Qmin r x)
  end.

Definition series_max (xs : list float) : float :=
  match dropna xs with
  | [] => NaN
  | x :: r => Some (fold_left Qmax r x)
  end.

Definition Qsum (xs : list Q) : Q := fold_right Qplus 0%Q xs.

(** [sum]: 0 on an empty or all-NaN group. *)
Definition series_sum (xs : list float) : Q := Qsum (dropna xs).

(** [count]: the number of non-null cells. *)
Definition series_count {A : Type} (xs : list (option A)) : nat :=
  length (omap id xs).

(** [mean]: NaN when no cell is left. *)
Definition series_mean (xs : list float) : float :=
  match dropna xs with
  | [] => NaN
  | l => Some (Qsum l / inject_Z (Z.of_nat (length l)))%Q
  end.

(** ** Boolean-mask indexing *)

Fixpoint select {A : Type} (mask : list bool) (l : list A) : list A :=
  match mask, l with
  | true :: m, x :: r => x :: select m r
  | false :: m, _ :: r => select m r
  | _, _ => []
  end.

(** ** Sorting

    [sort_values] goes through [nargsort]: the non-null keys are sorted
    ascending by [argsort(kind='quicksort')] and the null ones are put last;
    for a descending sort the keys are reversed before and the result after.
    On fewer than 16 elements the quicksort is its insertion sort, which
    keeps equal keys in their order; the tables sorted here have at most
    12 rows. *)

Section Sort.
Context {A : Type} (leb : A -> A -> bool).

Fixpoint insert (x : A) (l : list A) : list A :=
  match l with
  | [] => [x]
  | y :: r => if leb x y then x :: l else y :: insert x r
  end.

Definition isort (l : list A) : list A := fold_right insert [] l.
End Sort.

Definition nargsort {A K : Type} (kle : K -> K -> bool) (key : A -> option K)
    (ascending : bool) (l : list A) : list A :=
  let non_nans := List.filter (fun a => bool_decide (is_Some (key a))) l in
  let nans := List.filter (fun a => bool_decide (key a = None :> option K)) l in
  let leb a b :=
    match key a, key b with
    | Some x, Some y => kle x y
    | _, _ => true
    end in
  (if ascending then isort leb non_nans
   else rev (isort leb (rev non_nans))) ++ nans.

Definition sort_values {A K : Type} (kle : K -> K -> bool) (key : A -> option K)
    (ascending : bool) (l : list A) : list A :=
  nargsort kle key ascending l.

Definition head {A : Type} (n : nat) (l : list A) : list A := firstn n l.

(** ** Grouping

    [groupby] with the default [sort=True], [dropna=True]: one group per
    distinct non-null key, in key order; each group holds its rows in table
    order. *)

Section GroupBy.
Context {A K : Type} (cmp : K -> K -> comparison).

Definition key_eqb (a b : K) : bool :=
  match cmp a b with Eq => true | _ => false end.

Definition key_leb (a b : K) : bool :=
  match cmp a b with Gt => false | _ => true end.

Fixpoint unique (ks : list K) : list K :=
  match ks with
  | [] => []
  | k :: r => k :: List.filter (fun k' => negb (key_eqb k' k)) (unique r)
  end.

Definition group_rows (key : A -> option K) (k : K) (rows : list A) : list A :=
  List.filter
    (fun r => match key r with Some k' => key_eqb k' k | None => false end)
    rows.

Definition groupby (key : A -> option K) (rows : list A) : list (K * list A) :=
  map (fun k => (k, group_rows key k rows))
      (isort key_leb (unique (omap key rows))).
End GroupBy.

(** ** Categorical columns, [pd.cut] *)

Record Categorical : Type := mkCat {
  categories : list string;
  values : list (option string)
}.

(** Grouping by a categorical column.  The groups are the categories, in
    category order: all of them with [observed=False], those that occur
    in the column with [observed=True].  Null cells belong to no group. *)
Definition groupby_categorical {A : Type} (observed : bool)
    (cats : list string) (key : A -> option string) (rows : list A)
    : list (string * list A) :=
  let present k :=
    existsb (fun r => match key r with Some k' => String.eqb k' k | None => false end)
            rows in
  map (fun k => (k, group_rows String.compare key k rows))
      (if observed then List.filter present cats else cats).

(** A bin edge: NaN, a finite number or [float('inf')]. *)
Inductive bound : Type := BNaN | BFin (q : Q) | BInf.

Definition of_float (x : float) : bound :=
  match x with Some q => BFin q | None => BNaN end.

(** [b < x], [b <= x], [b == x] for an edge [b] and a finite [x]. *)
Definition blt (b : bound) (x : Q) : bool :=
  match b with BFin q => Qltb q x | _ => false end.
Definition ble (b : bound) (x : Q) : bool :=
  match b with BFin q => Qle_bool q x | _ => false end.
Definition beq (b : bound) (x : Q) : bool :=
  match b with BFin q => Qeq_bool q x | _ => false end.

Definition bound_le (a b : bound) : bool :=
  match a, b with
  | BFin x, BFin y => Qle_bool x y
  | BFin _, BInf | BInf, BInf => true
  | _, _ => false
  end.

Definition bound_eqb (a b : bound) : bool :=
  match a, b with
  | BFin x, BFin y => Qeq_bool x y
  | BInf, BInf => true
  | _, _ => false
  end.

(** [bins.searchsorted(x, side)] on increasing edges: the number of edges
    below [x] ([side='left']) or not above it ([side='right']). *)
Fixpoint searchsorted (side_left : bool) (bins : list bound) (x : Q) : nat :=
  match bins with
  | [] => 0
  | b :: r =>
      if (if side_left then blt b x else ble b x)
      then S (searchsorted side_left r x)
      else 0
  end.

Fixpoint is_monotonic_increasing (bins : list bound) : bool :=
  match bins with
  | [] => true
  | [b] => match b with BNaN => false | _ => true end
  | a :: (b :: _) as r => bound_le a b && is_monotonic_increasing r
  end.

Fixpoint has_duplicates {A : Type} (eqb : A -> A -> bool) (l : list A) : bool :=
  match l with
  | [] => false
  | x :: r => existsb (eqb x) r || has_duplicates eqb r
  end.

(** The bucket of one cell.  With [right=True] the edge search is
    [side='left'], so a bucket is open on the left and closed on the right;
    [include_lowest] puts the first edge itself into the first bucket. *)
Definition cut_value (bins : list bound) (labels : list string)
    (right include_lowest : bool) (v : float) : option string :=
  match v with
  | None => None
  | Some x =>
      let ids := searchsorted right bins x in
      let ids := if include_lowest && beq (hd BNaN bins) x then 1 else ids in
      if Nat.eqb ids (length bins) || Nat.eqb ids 0 then None
      else nth_error labels (ids - 1)
  end.

Definition cut (x : list float) (bins : list bound) (labels : list string)
    (right include_lowest : bool) : result Categorical :=
  if negb (is_monotonic_increasing bins) then
    ValueError "bins must increase monotonically."
  else if has_duplicates bound_eqb bins && negb (Nat.eqb (length bins) 2) then
    ValueError "Bin edges must be unique"
  else if has_duplicates String.eqb labels then
    ValueError "labels must be unique if ordered=True"
  else if negb (Nat.eqb (length labels) (length bins - 1)) then
    ValueError "Bin labels must be one fewer than the number of bin edges"
  else Ok (mkCat labels (map (cut_value bins labels right include_lowest) x)).

(** ** Tables

    A table object: the loaded rows it holds (with their derived columns)
    and the categorical columns assigned to it later, each as long as the
    table. *)
Record DataFrame : Type := mkDF {
  df_rows : list Row;
  df_extra : list (string * Categorical)
}.

(** [df[mask]]: a new table with the selected rows. *)
Definition getitem_mask (df : DataFrame) (mask : list bool) : DataFrame :=
  mkDF (select mask (df_rows df))
       (map (fun nc => (fst nc, mkCat (categories (snd nc)) (select mask (values (snd nc)))))
            (df_extra df)).

(** [df[name] = c]: replaces the column of that name or appends a new one. *)
Fixpoint assign (name : string) (c : Categorical) (cols : list (string * Categorical))
    : list (string * Categorical) :=
  match cols with
  | [] => [(name, c)]
  | (n, c') :: r => if String.eqb n name then (n, c) :: r else (n, c') :: assign name c r
  end.

Definition setitem (df : DataFrame) (name : string) (c : Categorical) : DataFrame :=
  mkDF (df_rows df) (assign name c (df_extra df)).

Definition column (df : DataFrame) (name : string) : option Categorical :=
  snd <$> List.find (fun nc => String.eqb (fst nc) name) (df_extra df).

End Pandas.

(* ===================================================================== *)
(** * The script *)
(* ===================================================================== *)

Module App.
Import Py Pandas.

(** ** What the user sees *)

(** The data handed to the chart renderer. *)
Inductive Figure : Type :=
| Scatter (grouped : list ((string * Z * string) * float * nat))
| Pie (top3 : list (string * Q))
| DualAxis (yoy : list (option string * float * nat))
| Bar (summary : list ((string * string) * nat)).

Inductive Event : Type :=
| SidebarHeader (text : string)
| DateInput (min_date max_date : option date)
| Error (text : string)
| Selectbox (label : string) (options : list string)
| Title (text : string)
| Subheader (text : string)
| Markdown (text : string)
| PlotlyChart (fig : Figure)
| Caption (text : string)
| Warning (text : string)
| Slider (room : string) (min_value max_value value : float)
| Forecast (room : string) (bookings : nat)
           (adj cur_adr projected_revenue diff : float) (increase : bool).

Definition is_chart (e : Event) : bool :=
  match e with PlotlyChart _ => true | _ => false end.

Definition is_error (e : Event) : bool :=
  match e with Error _ => true | _ => false end.

Definition is_warning (e : Event) : bool :=
  match e with Warning _ => true | _ => false end.

Definition is_caption (e : Event) : bool :=
  match e with Caption _ => true | _ => false end.

(** ** The store

    Table objects live in a heap and variables name them, so that an
    assignment to a column of a table is seen through every name of that
    table and through no other. *)

Definition loc : Type := nat.

Record State : Type := mkState {
  heap : list DataFrame;
  env : gmap string loc;
  shown : list Event
}.

(** How a run of the script, or of a part of it, ends. *)
Inductive Outcome (A : Type) : Type :=
| Returns (a : A) (s : State)
| Stops (s : State)
| Raises (msg : string) (s : State)
| Diverges (s : State).
Arguments Returns {A} a s.
Arguments Stops {A} s.
Arguments Raises {A} msg s.
Arguments Diverges {A} s.

Definition final {A : Type} (o : Outcome A) : State :=
  match o with
  | Returns _ s | Stops s | Raises _ s | Diverges s => s
  end.

Definition M (A : Type) : Type := State -> Outcome A.

#[export] Instance M_ret : MRet M := fun A a s => Returns a s.

#[export] Instance M_bind : MBind M := fun A B f m s =>
  match m s with
  | Returns a s' => f a s'
  | Stops s' => Stops s'
  | Raises msg s' => Raises msg s'
  | Diverges s' => Diverges s'
  end.

Definition show (e : Event) : M unit := fun s =>
  Returns tt (mkState (heap s) (env s) (shown s ++ [e])).

(** [st.stop()] *)
Definition stop {A : Type} : M A := fun s => Stops s.

Definition raise {A : Type} (msg : string) : M A := fun s => Raises msg s.

Definition diverge {A : Type} : M A := fun s => Diverges s.

Definition lift {A : Type} (r : result A) : M A :=
  match r with
  | Ok a => mret a
  | ValueError msg => raise msg
  end.

(** [x = <new table>]: the table gets a fresh place in the heap. *)
Definition bind_new (x : string) (df : DataFrame) : M unit := fun s =>
  Returns tt (mkState (heap s ++ [df]) (<[x := length (heap s)]> (env s)) (shown s)).

(** Reading the table a variable names. *)
Definition load (x : string) : M DataFrame := fun s =>
  match env s !! x with
  | Some l =>
      match heap s !! l with
      | Some df => Returns df s
      | None => Raises "NameError" s
      end
  | None => Raises "NameError" s
  end.

(** [x[name] = c]: updates the table object in place. *)
Definition setitem_var (x name : string) (c : Categorical) : M unit := fun s =>
  match env s !! x with
  | Some l =>
      match heap s !! l with
      | Some df => Returns tt (mkState (<[l := setitem df name c]> (heap s)) (env s) (shown s))
      | None => Raises "NameError" s
      end
  | None => Raises "NameError" s
  end.

Fixpoint for_each {A : Type} (l : list A) (body : A -> M unit) : M unit :=
  match l with
  | [] => mret tt
  | x :: r => body x ;; for_each r body
  end.

(** ** User input *)

(** What the date picker returns: one date, or a tuple of dates. *)
Inductive DateSelection : Type :=
| OneDate (d : date)
| DateTuple (ds : list date).

Record Inputs : Type := mkInputs {
  selected_dates : DateSelection;
  selected_chart : string;
  selected_month : string;
  slider_input : string -> float
}.

(** ** Lines 43-49: the date-range filter *)

Definition RECOGNIZED : list string := [SHOWER; BATHTUB].

(** The mask of lines 46-48; a NaT check-in compares false. *)
Definition filter_mask (start_date end_date : date) (r : Row) : bool :=
  match check_in r with
  | Some d => date_leb start_date d && date_leb d end_date
  | None => false
  end
  && str_in (Room_Type r) RECOGNIZED.

Definition filtered (data : DataFrame) (start_date end_date : date) : DataFrame :=
  getitem_mask data (map (filter_mask start_date end_date) (df_rows data)).

Definition chart_options : list string :=
  [ "Monthly ADR Distribution";
    "Top 3 ADR Revenue Share by Month";
    "Year-over-Year Trends";
    "Seasonal Analysis (Interactive)";
    "ADR Bin Distribution" ].

(** ** Chart 1 (lines 67-85) *)

Definition key3_compare (a b : string * Z * string) : comparison :=
  match String.compare (fst (fst a)) (fst (fst b)) with
  | Eq => match Z.compare (snd (fst a)) (snd (fst b)) with
          | Eq => String.compare (snd a) (snd b)
          | c => c
          end
  | c => c
  end.

Definition key3 (r : Row) : option (string * Z * string) :=
  match Month r, Day r with
  | Some m, Some d => Some (m, d, Room_Type r)
  | _, _ => None
  end.

Definition grouped1 (rows : list Row) : list ((string * Z * string) * float * nat) :=
  map (fun g => (fst g, series_mean (map ADR (snd g)), series_count (map ADR (snd g))))
      (groupby key3_compare key3 rows).

Definition chart1 : M unit :=
  show (Subheader "Monthly ADR Distribution by Room Type") ;;
  df ← load "filtered" ;
  show (PlotlyChart (Scatter (grouped1 (df_rows df)))).

(** ** Chart 2 (lines 88-104) *)

Definition bins : list bound := [BFin 0; BFin 800; BFin 1000; BFin 1200; BInf].
Definition labels : list string := ["<800"; "800-1000"; "1000-1200"; ">1200"].

(** One cell of the ADR Group column of line 93. *)
Definition ADR_Group (adr : float) : option string :=
  cut_value bins labels true false adr.

(** Line 94, on a table that carries the ADR Group column.  [observed] is
    the library's default for [groupby(observed=...)], which the script
    does not pass: [false] before pandas 3.0, [true] from 3.0 on. *)
Definition top3 (observed : bool) (month_data : DataFrame) : list (string * Q) :=
  match column month_data "ADR Group" with
  | Some c =>
      let rows := combine (df_rows month_data) (values c) in
      let grouped :=
        map (fun g => (fst g, series_sum (map (fun rc => total_price (fst rc)) (snd g))))
            (groupby_categorical observed (categories c) snd rows) in
      head 3 (sort_values Qle_bool (fun g => Some (snd g)) false grouped)
  | None => []
  end.

(** Line 90: the rows of the selected month, as a new table. *)
Definition month_data (df : DataFrame) (selected_month : string) : DataFrame :=
  getitem_mask df
    (map (fun r => bool_decide (Month r = Some selected_month)) (df_rows df)).

(** The table [month_data] after line 93, for a valid column. *)
Definition month_table (df : DataFrame) (selected_month : string) : DataFrame :=
  let md := month_data df selected_month in
  setitem md "ADR Group" (mkCat labels (map ADR_Group (map ADR (df_rows md)))).

Definition chart2 (observed : bool) (selected_month : string) : M unit :=
  show (Selectbox "Select Month" MONTHS) ;;
  df ← load "filtered" ;
  bind_new "month_data" (month_data df selected_month) ;;
  md ← load "month_data" ;
  c ← lift (cut (map ADR (df_rows md)) bins labels true false) ;
  setitem_var "month_data" "ADR Group" c ;;
  md ← load "month_data" ;
  let top3 := top3 observed md in
  show (Title (selected_month +:+ " - Top 3 ADR Share")) ;;
  if negb (Nat.eqb (length top3) 0) then
    show (PlotlyChart (Pie top3)) ;;
    if Nat.ltb (length top3) 3 then
      show (Caption ("⚠️ Only " +:+ pretty (length top3) +:+ " ADR groups found for "
                      +:+ selected_month +:+ "."))
    else mret tt
  else show (Warning "No data available.").

(** ** Chart 3 (lines 107-117) *)

Definition yoy_grouped (rows : list Row) : list (string * float * nat) :=
  map (fun g => (fst g, series_mean (map ADR (snd g)), series_count (map ADR (snd g))))
      (groupby String.compare Month rows).

Fixpoint index_of (x : string) (l : list string) : option nat :=
  match l with
  | [] => None
  | y :: r => if String.eqb y x then Some 0%nat else S <$> index_of x r
  end.

(** Line 110: a label that is no category becomes null. *)
Definition to_categorical (cats : list string) (x : string) : option string :=
  if str_in x cats then Some x else None.

(** The code of a categorical cell: its position among the categories. *)
Definition code (cats : list string) (x : option string) : option nat :=
  x ≫= (fun m => index_of m cats).

Definition yoy (rows : list Row) : list (option string * float * nat) :=
  let yoy :=
    map (fun row => (to_categorical MONTHS (fst (fst row)), snd (fst row), snd row))
        (yoy_grouped rows) in
  sort_values Nat.leb (fun row => code MONTHS (fst (fst row))) true yoy.

Definition chart3 : M unit :=
  show (Subheader "Year-over-Year ADR and Booking Trends") ;;
  df ← load "filtered" ;
  show (PlotlyChart (DualAxis (yoy (df_rows df)))).

(** ** Chart 4 (lines 120-153) *)

Definition grouped4 (rows : list Row) : list (string * float * nat * Q) :=
  map (fun g => (fst g,
                 series_mean (map ADR (snd g)),
                 series_count (map booking_reference (snd g)),
                 Qsum (map night (snd g))))
      (groupby String.compare (fun r => Some (Room_Type r)) rows).

(** The five text lines shown per room type are one [Forecast] event that
    carries their numbers. *)
Definition chart4 (slider_input : string -> float) : M unit :=
  show (Subheader "🎯 Adjust ADR and Forecast Revenue") ;;
  df ← load "filtered" ;
  show (Markdown "### 🛏️ Adjust ADR by Room Type") ;;
  for_each (grouped4 (df_rows df)) (fun row =>
    let room := fst (fst (fst row)) in
    let cur_adr := fround2 (snd (fst (fst row))) in
    let bookings := snd (fst row) in
    let nights := snd row in
    show (Slider room (Some 0%Q)
                 (if fgt cur_adr (Some 0%Q) then fmul cur_adr (Some 2%Q) else Some 10000%Q)
                 cur_adr) ;;
    let adj := slider_input room in
    let original_revenue := fmul cur_adr (Some nights) in
    let projected_revenue := fmul adj (Some nights) in
    let diff := fsub projected_revenue original_revenue in
    show (Forecast room bookings adj cur_adr projected_revenue diff (fgt diff (Some 0%Q)))).

(** ** Chart 5 (lines 157-177) *)

Definition step_percent : Q := 0.05.

(** Lines 164-165.  [None]: the loop is still running when the fuel is
    used up. *)
Fixpoint bin_edges_loop (fuel : nat) (adr_max : float) (bin_edges : list float)
    : option (list float) :=
  match fuel with
  | O => None
  | S fuel' =>
      if flt (List.last bin_edges NaN) adr_max
      then bin_edges_loop fuel' adr_max
             (bin_edges ++ [fmul (List.last bin_edges NaN) (Some (1 + step_percent)%Q)])
      else Some bin_edges
  end.

(** Lines 160-165 on the ADR column of the filtered table. *)
Definition bin_edges (fuel : nat) (adr : list float) : option (list float) :=
  let adr_min := series_min adr in
  let adr_max := series_max adr in
  bin_edges_loop fuel adr_max [adr_min].

(** Line 166; [int] of a NaN raises. *)
Fixpoint bin_labels (bin_edges : list float) : result (list string) :=
  match bin_edges with
  | a :: (b :: _) as r =>
      match a, b, bin_labels r with
      | Some x, Some y, Ok ls => Ok ((pretty (int x) +:+ "-" +:+ pretty (int y)) :: ls)
      | Some _, Some _, ValueError msg => ValueError msg
      | _, _, _ => ValueError "cannot convert float NaN to integer"
      end
  | _ => Ok []
  end.

(** Lines 169-170: the number of rows per (bin, Room Type).  Without
    [observed] every category is paired with every room type of the
    table. *)
Definition summary (observed : bool) (df : DataFrame) : list ((string * string) * nat) :=
  match column df "ADR_BIN_5P" with
  | Some c =>
      let rows := combine (df_rows df) (values c) in
      let room_types :=
        isort (key_leb String.compare)
              (unique String.compare (map (fun rc => Room_Type (fst rc)) rows)) in
      let size k :=
        length (List.filter
                  (fun rc => bool_decide (snd rc = Some (fst k))
                             && String.eqb (Room_Type (fst rc)) (snd k))
                  rows) in
      let keys := list_prod (categories c) room_types in
      let keys := if observed
                  then List.filter (fun k => negb (Nat.eqb (size k) 0)) keys
                  else keys in
      List.filter (fun row => str_in (snd (fst row)) RECOGNIZED)
                  (map (fun k => (k, size k)) keys)
  | None => []
  end.

Definition chart5 (observed : bool) (fuel : nat) : M unit :=
  show (Subheader "📦 ADR Bin (5%) Distribution by Room Type") ;;
  df ← load "filtered" ;
  match bin_edges fuel (map ADR (df_rows df)) with
  | None => diverge
  | Some bin_edges =>
      bin_labels ← lift (bin_labels bin_edges) ;
      c ← lift (cut (map ADR (df_rows df)) (map of_float bin_edges) bin_labels true true) ;
      setitem_var "filtered" "ADR_BIN_5P" c ;;
      df ← load "filtered" ;
      show (PlotlyChart (Bar (summary observed df)))
  end.

(** ** The whole script *)

Definition date_min (a b : date) : date := if date_leb a b then a else b.
Definition date_max (a b : date) : date := if date_leb a b then b else a.

Definition reduce_dates (f : date -> date -> date) (ds : list (option date)) : option date :=
  match omap id ds with
  | [] => None
  | d :: r => Some (fold_left f r d)
  end.

(** Lines 67-177: the branch on the selected label. *)
Definition routine (observed : bool) (fuel : nat) (inp : Inputs) : M unit :=
  let selected_chart := selected_chart inp in
  if String.eqb selected_chart "Monthly ADR Distribution" then chart1
  else if String.eqb selected_chart "Top 3 ADR Revenue Share by Month" then
    chart2 observed (selected_month inp)
  else if String.eqb selected_chart "Year-over-Year Trends" then chart3
  else if String.eqb selected_chart "Seasonal Analysis (Interactive)" then
    chart4 (slider_input inp)
  else if String.eqb selected_chart "ADR Bin Distribution" then chart5 observed fuel
  else mret tt.

(** Lines 55-177: the chart selector, the title and the selected routine. *)
Definition dispatch (observed : bool) (fuel : nat) (inp : Inputs) : M unit :=
  show (Selectbox "Select Chart" chart_options) ;;
  show (Title "📊 Hotel ADR Dashboard") ;;
  routine observed fuel inp.

(** Lines 32-52: the date picker and the guard on what it returned. *)
Definition select_range (inp : Inputs) : M unit :=
  data ← load "data" ;
  show (SidebarHeader "📌 Filter by Date Range") ;;
  show (DateInput (reduce_dates date_min (map check_in (df_rows data)))
                  (reduce_dates date_max (map check_in (df_rows data)))) ;;
  match selected_dates inp with
  | DateTuple [start_date; end_date] =>
      bind_new "filtered" (filtered data start_date end_date)
  | _ =>
      show (Error "⚠️ Please select both a start and end date.") ;;
      stop
  end.

Definition script (observed : bool) (fuel : nat) (inp : Inputs) : M unit :=
  select_range inp ;;
  dispatch observed fuel inp.

(** Lines 10-29: the store after loading, with the table bound to [data]. *)
Definition load_data (rows : list Row) : State :=
  mkState [mkDF rows []] {[ "data" := 0%nat ]} [].

(** One interaction: the script runs from its first line. *)
Definition run (observed : bool) (fuel : nat) (rows : list Row) (inp : Inputs)
    : Outcome unit :=
  script observed fuel inp (load_data rows).

(** A session: one run per interaction, each on the table as loaded. *)
Definition session (observed : bool) (fuel : nat) (rows : list Row)
    (inps : list Inputs) : list (Outcome unit) :=
  map (run observed fuel rows) inps.

(** The table a variable names in a state. *)
Definition table_of (x : string) (s : State) : option DataFrame :=
  env s !! x ≫= (fun l => heap s !! l).

End App.

(* ===================================================================== *)
(** * Vocabulary of the statements *)
(* ===================================================================== *)

Local Open Scope list_scope.

(** Two characters that are the same letter, in whatever case. *)
Definition same_letter (c1 c2 : ascii) : Prop :=
  c1 = c2 \/
  (65 <= N_of_ascii c1 <= 90 /\ N_of_ascii c2 = N_of_ascii c1 + 32)%N \/
  (65 <= N_of_ascii c2 <= 90 /\ N_of_ascii c1 = N_of_ascii c2 + 32)%N.

(** Two texts that differ in the case of their letters only. *)
Inductive same_text : string -> string -> Prop :=
| same_text_nil : same_text "" ""
| same_text_cons c1 c2 s1 s2 :
    same_letter c1 c2 -> same_text s1 s2 -> same_text (String c1 s1) (String c2 s2).

(** [pat] occurs in [s], in whatever case. *)
Definition occurs_nocase (pat s : string) : Prop :=
  exists a w b, s = a +:+ w +:+ b /\ same_text w pat.


(** [a <= b] on dates, spelled out: by year, then month, then day. *)
Definition date_le (a b : date) : Prop :=
  (d_year a < d_year b)%Z \/
  (d_year a = d_year b /\
   ((month_number (d_month a) < month_number (d_month b))%Z \/
    (month_number (d_month a) = month_number (d_month b) /\ (d_day a <= d_day b)%Z))).



(** The rows of a bucket: those whose ADR falls into it. *)
Definition bucket_rows (rows : list Row) (label : string) : list Row :=
  List.filter (fun r => bool_decide (App.ADR_Group (ADR r) = Some label)) rows.

(** The revenue of a bucket: the sum of Total price over its rows. *)
Definition revenue (rows : list Row) (label : string) : Q :=
  Pandas.series_sum (map total_price (bucket_rows rows label)).

(** The grouped table before it is sorted: one row per bucket, in label
    order; with [observed], only the buckets that have a row. *)
Definition buckets (observed : bool) (rows : list Row) : list (string * Q) :=
  map (fun label => (label, revenue rows label))
      (if observed
       then List.filter (fun label => negb (Nat.eqb (length (bucket_rows rows label)) 0))
                        App.labels
       else App.labels).


(** The rows of a month label, of whatever year. *)
Definition month_rows (rows : list Row) (m : string) : list Row :=
  List.filter (fun r => bool_decide (Month r = Some m)) rows.

(** The aggregate row of a month label: mean ADR and booking count over
    all its rows. *)
Definition yoy_row (rows : list Row) (m : string) : option string * Py.float * nat :=
  (Some m,
   Pandas.series_mean (map ADR (month_rows rows m)),
   Pandas.series_count (map ADR (month_rows rows m))).

(** The calendar position of a month label. *)
Definition month_code (m : string) : nat :=
  from_option id 0%nat (App.index_of m MONTHS).

(** Two bookings in January of different years, and one in March. *)
Definition two_januaries : list Row :=
  [ mkRow (Some (mkdate 2024 January 9)) (Some 900%Q) (Some 1800%Q)
          "Deluxe Twin Room with Shower" 2 (Some "B");
    mkRow (Some (mkdate 2023 March 2)) (Some 1000%Q) (Some 1000%Q)
          "Deluxe Twin Room with Bathtub" 1 (Some "C");
    mkRow (Some (mkdate 2023 January 5)) (Some 700%Q) (Some 700%Q)
          "Deluxe Twin Room with Shower" 1 (Some "A") ].

(** A computation that only adds events satisfying [P] to what is shown. *)
Definition shows_only (P : App.Event -> Prop) {A : Type} (m : App.M A) : Prop :=
  forall s, exists evs,
    Forall P evs /\ App.shown (App.final (m s)) = App.shown s ++ evs.


(** What chart 2 shows for a filtered table and a month. *)
Definition chart2_shown (observed : bool) (df : Pandas.DataFrame) (selected_month : string)
    : list App.Event :=
  let top3 := App.top3 observed (App.month_table df selected_month) in
  [ App.Selectbox "Select Month" MONTHS;
    App.Title (selected_month +:+ " - Top 3 ADR Share") ]
  ++ (if negb (Nat.eqb (length top3) 0)
      then App.PlotlyChart (App.Pie top3)
           :: (if Nat.ltb (length top3) 3
               then [App.Caption ("⚠️ Only " +:+ pretty (length top3)
                                   +:+ " ADR groups found for " +:+ selected_month +:+ ".")]
               else [])
      else [App.Warning "No data available."]).

(** What the sidebar shows before the guard of line 43. *)
Definition sidebar_shown (rows : list Row) : list App.Event :=
  [ App.SidebarHeader "📌 Filter by Date Range";
    App.DateInput (App.reduce_dates App.date_min (map check_in rows))
                  (App.reduce_dates App.date_max (map check_in rows)) ].

(** The state after line 49: the loaded and the filtered table, each under
    its name. *)
Definition filtered_state (rows : list Row) (start_date end_date : date) : App.State :=
  App.mkState
    [ Pandas.mkDF rows []; App.filtered (Pandas.mkDF rows []) start_date end_date ]
    (<["filtered" := 1%nat]> {[ "data" := 0%nat ]})
    (sidebar_shown rows).

(** The state in which [st.stop()] of line 52 leaves the run. *)
Definition rejected_state (rows : list Row) : App.State :=
  App.mkState
    [ Pandas.mkDF rows [] ]
    {[ "data" := 0%nat ]}
    (sidebar_shown rows ++ [App.Error "⚠️ Please select both a start and end date."]).

(** The state in which the chart routine starts. *)
Definition dispatch_state (rows : list Row) (start_date end_date : date) : App.State :=
  App.mkState
    (App.heap (filtered_state rows start_date end_date))
    (App.env (filtered_state rows start_date end_date))
    (sidebar_shown rows ++
     [ App.Selectbox "Select Chart" App.chart_options;
       App.Title "📊 Hotel ADR Dashboard" ]).

(** An interaction that asks for chart 2 on a full date range. *)
Definition ask_top3 (selected_month : string) : App.Inputs :=
  App.mkInputs (App.DateTuple [mkdate 2023 January 1; mkdate 2024 December 31])
               "Top 3 ADR Revenue Share by Month" selected_month (fun _ => Py.NaN).

(** An interaction that asks for a chart on a full date range. *)
Definition ask (selected_chart : string) : App.Inputs :=
  App.mkInputs (App.DateTuple [mkdate 2023 January 1; mkdate 2024 December 31])
               selected_chart "Jan" (fun _ => Some 1000%Q).

(** An interaction in which only the start date has been picked. *)
Definition ask_half_range : App.Inputs :=
  App.mkInputs (App.DateTuple [mkdate 2023 January 1])
               "Year-over-Year Trends" "Jan" (fun _ => Some 1000%Q).


(** What chart 4 shows for one room type (lines 131-153). *)
Definition chart4_row_shown (slider_input : string -> Py.float)
    (row : string * Py.float * nat * Q) : list App.Event :=
  let room := fst (fst (fst row)) in
  let cur_adr := Py.fround2 (snd (fst (fst row))) in
  let bookings := snd (fst row) in
  let nights := snd row in
  let adj := slider_input room in
  let projected_revenue := Py.fmul adj (Some nights) in
  let diff := Py.fsub projected_revenue (Py.fmul cur_adr (Some nights)) in
  [ App.Slider room (Some 0%Q)
      (if Py.fgt cur_adr (Some 0%Q) then Py.fmul cur_adr (Some 2%Q) else Some 10000%Q)
      cur_adr;
    App.Forecast room bookings adj cur_adr projected_revenue diff
                 (Py.fgt diff (Some 0%Q)) ].



(** The number of charts among the events shown. *)
Definition count_charts (evs : list App.Event) : nat :=
  length (List.filter App.is_chart evs).

(** The Total price of a row as it enters a sum: a null cell adds nothing. *)
Definition price_or_zero (r : Row) : Q :=
  match total_price r with Some q => q | None => 0%Q end.

(** The rows whose ADR is a positive number. *)
Definition positive_ADR (r : Row) : bool :=
  match ADR r with Some x => Py.Qltb 0 x | None => false end.

(** A text without its commas. *)
Fixpoint without_commas (s : string) : string :=
  match s with
  | EmptyString => EmptyString
  | String c r =>
      if Ascii.eqb c "," then without_commas r else String c (without_commas r)
  end.

(* ===================================================================== *)
(** * The room classifier *)
(* ===================================================================== *)

Section Strings.
Import Py.

Lemma append_nil (s : string) : "" +:+ s = s.
Proof. reflexivity. Qed.

Lemma append_cons (c : ascii) (a b : string) :
  String c a +:+ b = String c (a +:+ b).
Proof. reflexivity. Qed.

Lemma prefix_iff (p s : string) :
  String.prefix p s = true <-> exists q, s = p +:+ q.
Proof.
  revert s. induction p as [|c p IH]; intros s.
  - destruct s; split; try done; intros _; eexists; by rewrite append_nil.
  - destruct s as [|d s]; simpl.
    + split; [done | intros [q Hq]; rewrite append_cons in Hq; discriminate].
    + destruct (ascii_dec c d) as [->|Hne].
      * rewrite IH. split; intros [q Hq]; exists q; rewrite append_cons in *; congruence.
      * split; [done | intros [q Hq]; rewrite append_cons in Hq; congruence].
Qed.

Lemma contains_nil (p : string) : contains p "" = String.prefix p "" || false.
Proof. by destruct p. Qed.

Lemma contains_cons (p : string) (c : ascii) (s : string) :
  contains p (String c s) = String.prefix p (String c s) || contains p s.
Proof. reflexivity. Qed.

Lemma contains_iff (p s : string) :
  contains p s = true <-> exists a b, s = a +:+ p +:+ b.
Proof.
  induction s as [|c s IH].
  - rewrite contains_nil, orb_false_r, prefix_iff. split.
    + intros [q Hq]. exists "", q. by rewrite append_nil.
    + intros (a & b & Hab). destruct a; [exists b; by rewrite append_nil in Hab
                                        | rewrite append_cons in Hab; discriminate].
  - rewrite contains_cons, orb_true_iff, prefix_iff, IH. split.
    + intros [[q Hq] | (a & b & Hab)].
      * exists "", q. by rewrite append_nil.
      * exists (String c a), b. rewrite append_cons. by rewrite Hab.
    + intros (a & b & Hab). destruct a as [|d a].
      * left. exists b. by rewrite append_nil in Hab.
      * right. exists a, b. rewrite append_cons in Hab. congruence.
Qed.

Lemma lower_app (a b : string) : lower (a +:+ b) = lower a +:+ lower b.
Proof.
  induction a as [|c a IH]; [done|].
  rewrite append_cons. simpl. by rewrite IH, append_cons.
Qed.

Lemma lower_split (s a' b' : string) :
  lower s = a' +:+ b' -> exists a b, s = a +:+ b /\ lower a = a' /\ lower b = b'.
Proof.
  revert s. induction a' as [|c a' IH]; intros s H.
  - by exists "", s.
  - rewrite append_cons in H.
    destruct s as [|d s]; simpl in H; [discriminate|].
    injection H as Hc Hs. destruct (IH _ Hs) as (a & b & -> & Ha & Hb).
    exists (String d a), b. simpl. by rewrite Hc, Ha.
Qed.

Lemma N_of_ascii_lt (c : ascii) : (N_of_ascii c < 256)%N.
Proof. apply N_ascii_bounded. Qed.

Lemma lower_ascii_upper (c : ascii) :
  (65 <= N_of_ascii c <= 90)%N -> lower_ascii c = ascii_of_N (N_of_ascii c + 32).
Proof.
  intros [H1 H2]. unfold lower_ascii.
  apply N.leb_le in H1, H2. by rewrite H1, H2.
Qed.

Lemma lower_ascii_other (c : ascii) :
  ~ (65 <= N_of_ascii c <= 90)%N -> lower_ascii c = c.
Proof.
  intros H. unfold lower_ascii.
  destruct (N.leb_spec 65 (N_of_ascii c)); [|done].
  destruct (N.leb_spec (N_of_ascii c) 90); [|done].
  exfalso. apply H. lia.
Qed.

Lemma lower_ascii_eq_iff (c1 c2 : ascii) :
  lower_ascii c1 = lower_ascii c2 <-> same_letter c1 c2.
Proof.
  unfold same_letter.
  pose proof (N_of_ascii_lt c1) as B1. pose proof (N_of_ascii_lt c2) as B2.
  assert (D1 : (65 <= N_of_ascii c1 <= 90)%N \/ ~ (65 <= N_of_ascii c1 <= 90)%N) by lia.
  assert (D2 : (65 <= N_of_ascii c2 <= 90)%N \/ ~ (65 <= N_of_ascii c2 <= 90)%N) by lia.
  destruct D1 as [U1|U1], D2 as [U2|U2];
    rewrite ?(lower_ascii_upper _ U1), ?(lower_ascii_upper _ U2),
            ?(lower_ascii_other _ U1), ?(lower_ascii_other _ U2).
  - split.
    + intros H. apply (f_equal N_of_ascii) in H.
      rewrite !N_ascii_embedding in H by lia. left.
      rewrite <- (ascii_N_embedding c1), <- (ascii_N_embedding c2). f_equal. lia.
    + intros [-> | [[_ H] | [_ H]]]; [done | lia | lia].
  - split.
    + intros H. right; left. split; [lia|]. rewrite <- H.
      rewrite N_ascii_embedding by lia. done.
    + intros [-> | [[_ H] | [H _]]]; [lia | | lia].
      rewrite <- H. by rewrite ascii_N_embedding.
  - split.
    + intros H. right; right. split; [lia|]. rewrite H.
      rewrite N_ascii_embedding by lia. done.
    + intros [-> | [[H _] | [_ H]]]; [lia | lia |].
      rewrite <- H. by rewrite ascii_N_embedding.
  - split; [by left|]. intros [-> | [[H _] | [H _]]]; [done | lia | lia].
Qed.

Lemma lower_eq_iff (s1 s2 : string) : lower s1 = lower s2 <-> same_text s1 s2.
Proof.
  split.
  - revert s2. induction s1 as [|c1 s1 IH]; intros [|c2 s2] H; simpl in H;
      try discriminate; [constructor|].
    injection H as Hc Hs. constructor; [by apply lower_ascii_eq_iff | by apply IH].
  - induction 1 as [|c1 c2 s1 s2 Hc _ IH]; simpl; [done|].
    apply lower_ascii_eq_iff in Hc. by rewrite Hc, IH.
Qed.

Lemma contains_lower_iff (pat s : string) :
  lower pat = pat ->
  contains pat (lower s) = true <-> occurs_nocase pat s.
Proof.
  intros Hpat. rewrite contains_iff. split.
  - intros (a' & b' & H).
    destruct (lower_split _ _ _ H) as (a & r & -> & Ha & Hr).
    destruct (lower_split _ _ _ Hr) as (w & b & -> & Hw & Hb).
    exists a, w, b. split; [done|]. apply lower_eq_iff. by rewrite Hw, Hpat.
  - intros (a & w & b & -> & Hw). apply lower_eq_iff in Hw. rewrite Hpat in Hw.
    exists (lower a), (lower b). by rewrite !lower_app, Hw.
Qed.

End Strings.

Lemma contains_false_iff (pat s : string) :
  Py.lower pat = pat ->
  Py.contains pat (Py.lower s) = false <-> ~ occurs_nocase pat s.
Proof.
  intros Hpat. rewrite <- (contains_lower_iff pat s Hpat).
  destruct (Py.contains pat (Py.lower s)); split; congruence.
Qed.

(** Claim C7.  The room classifier returns one of the three labels and decides
    by fixed priority, whatever the case of the letters: a text in which
    "shower" occurs is a Shower room even when "bathtub" occurs too; otherwise
    a text in which "bathtub" or "bath tub" occurs is a Bathtub room;
    otherwise the room is Other.  Texts that differ in letter case only get
    the same label. *)
Theorem map_room_type_priority (room : string) :
  (map_room_type room = SHOWER \/ map_room_type room = BATHTUB
   \/ map_room_type room = OTHER) /\
  (occurs_nocase "shower" room -> map_room_type room = SHOWER) /\
  (~ occurs_nocase "shower" room ->
   occurs_nocase "bathtub" room \/ occurs_nocase "bath tub" room ->
   map_room_type room = BATHTUB) /\
  (~ occurs_nocase "shower" room -> ~ occurs_nocase "bathtub" room ->
   ~ occurs_nocase "bath tub" room -> map_room_type room = OTHER) /\
  (forall room', same_text room room' -> map_room_type room' = map_room_type room).
Proof.
  unfold map_room_type.
  pose proof (contains_lower_iff "shower" room eq_refl) as Hs.
  pose proof (contains_lower_iff "bathtub" room eq_refl) as Hb.
  pose proof (contains_lower_iff "bath tub" room eq_refl) as Ht.
  destruct (Py.contains "shower" (Py.lower room)) eqn:Es;
  destruct (Py.contains "bathtub" (Py.lower room)) eqn:Eb;
  destruct (Py.contains "bath tub" (Py.lower room)) eqn:Et; simpl;
  (split; [tauto|]);
  (split; [intros H; try done; apply Hs in H; done|]);
  (split; [intros Hn [H|H]; try done;
           try (exfalso; apply Hn; by apply Hs);
           try (apply Hb in H; done); try (apply Ht in H; done)|]);
  (split; [intros H1 H2 H3; try done;
           try (exfalso; apply H1; by apply Hs);
           try (exfalso; apply H2; by apply Hb);
           try (exfalso; apply H3; by apply Ht)|]);
  intros room' Hr; apply lower_eq_iff in Hr; rewrite <- Hr, ?Es, ?Eb, ?Et; done.
Qed.

Lemma map_room_type_priority_witness :
  map_room_type "Twin room, SHOWER (no Bathtub)" = SHOWER.
Proof.
  apply (proj1 (proj2 (map_room_type_priority "Twin room, SHOWER (no Bathtub)"))).
  exists "Twin room, ", "SHOWER", " (no Bathtub)". split; [reflexivity|].
  apply lower_eq_iff. reflexivity.
Defined.

(* ===================================================================== *)
(** * The date-range filter *)
(* ===================================================================== *)

Section Filter.
Import Py Pandas App.

Lemma select_map {A : Type} (p : A -> bool) (l : list A) :
  select (map p l) l = List.filter p l.
Proof.
  induction l as [|x l IH]; simpl; [done|].
  destruct (p x); by rewrite IH.
Qed.

Lemma date_leb_le (a b : date) : date_leb a b = true <-> date_le a b.
Proof.
  unfold date_leb, date_compare, date_le.
  destruct (Z.compare_spec (d_year a) (d_year b));
  destruct (Z.compare_spec (month_number (d_month a)) (month_number (d_month b)));
  destruct (Z.compare_spec (d_day a) (d_day b));
  split; intros; try done; lia.
Qed.

Lemma str_in_recognized (x : string) :
  str_in x RECOGNIZED = true <-> x = SHOWER \/ x = BATHTUB.
Proof.
  unfold str_in, RECOGNIZED. simpl.
  rewrite !orb_true_iff, !String.eqb_eq. intuition discriminate.
Qed.

Lemma filter_mask_spec (s e : date) (r : Row) :
  filter_mask s e r = true <->
  exists d, check_in r = Some d /\ date_le s d /\ date_le d e /\
            (Room_Type r = SHOWER \/ Room_Type r = BATHTUB).
Proof.
  unfold filter_mask. rewrite andb_true_iff, str_in_recognized.
  destruct (check_in r) as [d|].
  - rewrite andb_true_iff, !date_leb_le. split.
    + intros [[H1 H2] H3]. by exists d.
    + intros (d' & [= <-] & H1 & H2 & H3). done.
  - split; [intros [? _]; done | intros (d & ? & _); done].
Qed.

Lemma filtered_rows (data : DataFrame) (s e : date) :
  df_rows (filtered data s e) = List.filter (filter_mask s e) (df_rows data).
Proof. unfold filtered, getitem_mask. simpl. apply select_map. Qed.

End Filter.

(** Claim C6.  A row is in the filtered table exactly when it is a row of the
    loaded table whose Check-in date lies in the inclusive interval
    [start_date, end_date] and whose Room Type is one of the two recognized
    categories; a row classified Other is never in it. *)
Theorem filtered_within_range (data : Pandas.DataFrame) (start_date end_date : date) (r : Row) :
  In r (Pandas.df_rows (App.filtered data start_date end_date)) <->
  In r (Pandas.df_rows data) /\
  (exists d, check_in r = Some d /\ date_le start_date d /\ date_le d end_date) /\
  (Room_Type r = SHOWER \/ Room_Type r = BATHTUB) /\
  Room_Type r <> OTHER.
Proof.
  rewrite filtered_rows, filter_In, filter_mask_spec. split.
  - intros [Hin (d & Hd & H1 & H2 & H3)]. repeat split; eauto.
    destruct H3 as [-> | ->]; discriminate.
  - intros (Hin & (d & Hd & H1 & H2) & H3 & _). eauto 10.
Qed.

Lemma filtered_within_range_witness :
  let r := mkRow (Some (mkdate 2024 March 5)) (Some 900%Q) (Some 1800%Q)
                 "Deluxe Twin Room with Shower" 2 (Some "B1") in
  exists d, check_in r = Some d /\
            date_le (mkdate 2024 March 1) d /\ date_le d (mkdate 2024 March 31).
Proof.
  intros r.
  apply (proj1 (proj2 (proj1 (filtered_within_range
           (Pandas.mkDF [r] []) (mkdate 2024 March 1) (mkdate 2024 March 31) r)
           (or_introl eq_refl)))).
Defined.

(* ===================================================================== *)
(** * The ADR Group buckets *)
(* ===================================================================== *)

Section Comparisons.
Import Py.

Lemma Qltb_lt (a b : Q) : Qltb a b = true <-> (a < b)%Q.
Proof.
  unfold Qltb. rewrite negb_true_iff. split.
  - intros H. apply Qnot_le_lt. intros Hle. apply Qle_bool_iff in Hle. congruence.
  - intros H. destruct (Qle_bool b a) eqn:E; [|done].
    apply Qle_bool_iff in E. lra.
Qed.

Lemma Qltb_ge (a b : Q) : Qltb a b = false <-> (b <= a)%Q.
Proof.
  unfold Qltb. rewrite negb_false_iff. apply Qle_bool_iff.
Qed.

Lemma Qltb_spec (a b : Q) : reflect (a < b)%Q (Qltb a b).
Proof.
  destruct (Qltb a b) eqn:E; constructor.
  - by apply Qltb_lt.
  - apply Qltb_ge in E. lra.
Qed.

End Comparisons.

Section ADRGroup.
Import Py Pandas App.

Lemma cut_ADR_Group (xs : list float) :
  cut xs bins labels true false = Ok (mkCat labels (map ADR_Group xs)).
Proof. reflexivity. Qed.

Lemma ADR_Group_cases (x : Q) :
  ADR_Group (Some x) =
    if Qltb 0 x then
      if Qltb 800 x then
        if Qltb 1000 x then
          if Qltb 1200 x then Some ">1200" else Some "1000-1200"
        else Some "800-1000"
      else Some "<800"
    else None.
Proof.
  unfold ADR_Group, cut_value, bins, labels, searchsorted, blt. simpl.
  destruct (Qltb 0 x); [|done].
  destruct (Qltb 800 x); [|done].
  destruct (Qltb 1000 x); [|done].
  destruct (Qltb 1200 x); done.
Qed.

End ADRGroup.

(** Claim C1, as the script computes it.  The ADR Group column is the
    bucket of each ADR cell, and the buckets are open on the left and closed
    on the right: (0, 800] is "<800", (800, 1000] is "800-1000",
    (1000, 1200] is "1000-1200", and everything above 1200 is ">1200"; a
    value of 0 or less, and a null one, gets no bucket.  So 799.99 and 800
    are labelled "<800", and 1199.99 and 1200 are labelled "1000-1200". *)
Theorem ADR_Group_right_closed :
  (forall xs : list Py.float,
     Pandas.cut xs App.bins App.labels true false
     = Pandas.Ok (Pandas.mkCat App.labels (map App.ADR_Group xs))) /\
  (forall x : Q,
     ((0 < x <= 800)%Q -> App.ADR_Group (Some x) = Some "<800") /\
     ((800 < x <= 1000)%Q -> App.ADR_Group (Some x) = Some "800-1000") /\
     ((1000 < x <= 1200)%Q -> App.ADR_Group (Some x) = Some "1000-1200") /\
     ((1200 < x)%Q -> App.ADR_Group (Some x) = Some ">1200") /\
     ((x <= 0)%Q -> App.ADR_Group (Some x) = None)) /\
  App.ADR_Group (Some 799.99%Q) = Some "<800" /\
  App.ADR_Group (Some 800%Q) = Some "<800" /\
  App.ADR_Group (Some 1199.99%Q) = Some "1000-1200" /\
  App.ADR_Group (Some 1200%Q) = Some "1000-1200" /\
  App.ADR_Group Py.NaN = None.
Proof.
  split; [apply cut_ADR_Group|].
  split; [|by vm_compute].
  intros x. rewrite ADR_Group_cases.
  destruct (Qltb_spec 0 x), (Qltb_spec 800 x), (Qltb_spec 1000 x), (Qltb_spec 1200 x);
    repeat split; intros; try done; lra.
Qed.

Lemma ADR_Group_right_closed_witness :
  App.ADR_Group (Some 800.01%Q) = Some "800-1000".
Proof.
  apply (proj1 (proj2 (proj1 (proj2 ADR_Group_right_closed) 800.01%Q))).
  split; [reflexivity | discriminate].
Defined.

(** Claim C1 as stated fails: 800 is not labelled "800-1000" and 1200 is not
    labelled ">1200". *)
Lemma ADR_Group_left_closed_counterexample :
  ~ (App.ADR_Group (Some 799.99%Q) = Some "<800" /\
     App.ADR_Group (Some 800%Q) = Some "800-1000" /\
     App.ADR_Group (Some 1199.99%Q) = Some "1000-1200" /\
     App.ADR_Group (Some 1200%Q) = Some ">1200").
Proof. vm_compute. intros (_ & H & _). discriminate H. Qed.

(* ===================================================================== *)
(** * The bin edges of chart 5 *)
(* ===================================================================== *)

Section SeriesMinMax.
Import Py Pandas.







End SeriesMinMax.

Section BinEdges.
Import Py Pandas App.






Lemma last_cons_In (l : list Q) (y d : Q) : In (List.last (y :: l) d) (y :: l).
Proof.
  revert y. induction l as [|z l IH]; intros y; [by left|].
  right. change (In (List.last (z :: l) d) (z :: l)). apply IH.
Qed.







End BinEdges.

Section BinEdgesRun.
Import Py Pandas App.



End BinEdgesRun.




(* ===================================================================== *)
(** * Sorting and grouping *)
(* ===================================================================== *)

Section SortFacts.
Import Pandas.
Context {A : Type} (leb : A -> A -> bool).

Lemma insert_perm (x : A) (l : list A) : Permutation (insert leb x l) (x :: l).
Proof.
  induction l as [|y l IH]; simpl; [done|].
  destruct (leb x y); [done|].
  rewrite IH. apply perm_swap.
Qed.

Lemma isort_perm (l : list A) : Permutation (isort leb l) l.
Proof.
  induction l as [|x l IH]; simpl; [done|].
  rewrite insert_perm. by constructor.
Qed.

Lemma isort_In (l : list A) (x : A) : In x (isort leb l) <-> In x l.
Proof.
  split; apply Permutation_in; [apply isort_perm | symmetry; apply isort_perm].
Qed.

Lemma isort_length (l : list A) : length (isort leb l) = length l.
Proof. apply Permutation_length, isort_perm. Qed.



Section Ordered.
Hypothesis leb_total : forall x y, leb x y = false -> leb y x = true.
Hypothesis leb_trans : forall x y z, leb x y = true -> leb y z = true -> leb x z = true.

Lemma insert_sorted (x : A) (l : list A) :
  StronglySorted (fun a b => leb a b = true) l ->
  StronglySorted (fun a b => leb a b = true) (insert leb x l).
Proof.
  induction 1 as [|y l Hs IH Hy]; simpl.
  - repeat constructor.
  - destruct (leb x y) eqn:E.
    + constructor; [by constructor|]. constructor; [done|].
      eapply List.Forall_impl; [|exact Hy]. intros z Hz. by apply (leb_trans _ y).
    + constructor; [done|].
      rewrite insert_perm.
      constructor; [by apply leb_total | done].
Qed.

Lemma isort_sorted (l : list A) :
  StronglySorted (fun a b => leb a b = true) (isort leb l).
Proof.
  induction l as [|x l IH]; simpl; [constructor | by apply insert_sorted].
Qed.

End Ordered.

(** Two orders that agree on the elements of a list sort it alike. *)
Lemma insert_ext (leb' : A -> A -> bool) (x : A) (l : list A) :
  (forall y, In y l -> leb x y = leb' x y) -> insert leb x l = insert leb' x l.
Proof.
  induction l as [|y l IH]; intros H; [done|].
  simpl. rewrite <- H by (by left). destruct (leb x y); [done|].
  f_equal. apply IH. intros z Hz. apply H. by right.
Qed.

End SortFacts.

Section SortFacts2.
Import Pandas.
Context {A : Type}.

Lemma isort_ext (leb leb' : A -> A -> bool) (l : list A) :
  (forall x y, In x l -> In y l -> leb x y = leb' x y) ->
  isort leb l = isort leb' l.
Proof.
  induction l as [|x l IH]; intros H; [done|].
  simpl. rewrite IH by (intros; apply H; by right).
  apply insert_ext. intros y Hy. apply H; [by left|].
  right. by apply (isort_In leb').
Qed.



Lemma filter_true (p : A -> bool) (l : list A) :
  (forall x, In x l -> p x = true) -> List.filter p l = l.
Proof.
  induction l as [|x l IH]; intros H; [done|].
  simpl. rewrite H by (by left). f_equal. apply IH. intros; apply H; by right.
Qed.

Lemma filter_false (p : A -> bool) (l : list A) :
  (forall x, In x l -> p x = false) -> List.filter p l = [].
Proof.
  induction l as [|x l IH]; intros H; [done|].
  simpl. rewrite H by (by left). apply IH. intros; apply H; by right.
Qed.

(** [nargsort] on a list whose keys are all present. *)
Lemma nargsort_no_nan {K : Type} (kle : K -> K -> bool) (key : A -> option K)
    (k : A -> K) (ascending : bool) (l : list A) :
  (forall a, In a l -> key a = Some (k a)) ->
  nargsort kle key ascending l =
    if ascending then isort (fun a b => kle (k a) (k b)) l
    else rev (isort (fun a b => kle (k a) (k b)) (rev l)).
Proof.
  intros H. unfold nargsort.
  rewrite (filter_true _ l), (filter_false _ l), app_nil_r.
  - destruct ascending.
    + apply isort_ext. intros x y Hx Hy. by rewrite (H x), (H y).
    + f_equal. apply isort_ext. intros x y Hx Hy.
      apply List.in_rev in Hx, Hy. by rewrite (H x), (H y).
  - intros x Hx. rewrite (H x Hx). by apply bool_decide_eq_false.
  - intros x Hx. rewrite (H x Hx). apply bool_decide_eq_true. by eexists.
Qed.

End SortFacts2.

(* ===================================================================== *)
(** * Chart 2: the top three buckets *)
(* ===================================================================== *)

Section Top3.
Import Py Pandas App.

Lemma string_compare_refl (s : string) : String.compare s s = Eq.
Proof.
  pose proof (String.compare_antisym s s) as H.
  destruct (String.compare s s); done.
Qed.

Lemma string_key_eqb (a b : string) :
  key_eqb String.compare a b = bool_decide (a = b).
Proof.
  unfold key_eqb. destruct (String.compare a b) eqn:E.
  - apply String.compare_eq_iff in E. subst. by rewrite bool_decide_eq_true_2.
  - rewrite bool_decide_eq_false_2; [done|]. intros ->.
    by rewrite string_compare_refl in E.
  - rewrite bool_decide_eq_false_2; [done|]. intros ->.
    by rewrite string_compare_refl in E.
Qed.

Lemma combine_map_self {A B : Type} (f : A -> B) (l : list A) :
  combine l (map f l) = map (fun a => (a, f a)) l.
Proof. induction l as [|a l IH]; simpl; [done | by rewrite IH]. Qed.

Lemma filter_map_comm {A B : Type} (p : B -> bool) (g : A -> B) (l : list A) :
  List.filter p (map g l) = map g (List.filter (fun a => p (g a)) l).
Proof.
  induction l as [|a l IH]; simpl; [done|].
  destruct (p (g a)); simpl; by rewrite IH.
Qed.

Lemma group_rows_tagged {A : Type} (f : A -> option string) (k : string) (l : list A) :
  group_rows String.compare snd k (map (fun a => (a, f a)) l)
  = map (fun a => (a, f a)) (List.filter (fun a => bool_decide (f a = Some k)) l).
Proof.
  unfold group_rows. rewrite filter_map_comm. f_equal.
  apply List.filter_ext. intros a. simpl. destruct (f a) as [k'|].
  - rewrite string_key_eqb. apply bool_decide_ext. split; congruence.
  - by rewrite bool_decide_eq_false_2.
Qed.

Lemma column_setitem (df : DataFrame) (name : string) (c : Categorical) :
  column (setitem df name c) name = Some c.
Proof.
  unfold column, setitem. simpl.
  induction (df_extra df) as [|[n c'] cols IH]; simpl.
  - by rewrite String.eqb_refl.
  - destruct (String.eqb n name) eqn:E; simpl; rewrite E; [done | apply IH].
Qed.

Lemma existsb_tagged (rows : list Row) (k : string) :
  existsb (fun rc : Row * option string =>
             match snd rc with Some k' => String.eqb k' k | None => false end)
          (map (fun r => (r, ADR_Group (ADR r))) rows)
  = negb (Nat.eqb (length (bucket_rows rows k)) 0).
Proof.
  unfold bucket_rows. induction rows as [|r rows IH]; simpl; [done|].
  rewrite IH. destruct (ADR_Group (ADR r)) as [k'|] eqn:E.
  - destruct (String.eqb_spec k' k) as [->|Hne].
    + by rewrite bool_decide_eq_true_2.
    + rewrite bool_decide_eq_false_2; [done | congruence].
  - by rewrite bool_decide_eq_false_2.
Qed.

(** Line 94 up to the sort: the sums per bucket. *)
Lemma top3_buckets (observed : bool) (df : DataFrame) (selected_month : string) :
  top3 observed (month_table df selected_month)
  = head 3 (sort_values Qle_bool (fun g => Some (snd g)) false
              (buckets observed (df_rows (month_data df selected_month)))).
Proof.
  unfold top3, month_table. rewrite column_setitem.
  cbv beta iota zeta. unfold setitem. cbn [df_rows values categories].
  set (rows := df_rows (month_data df selected_month)).
  rewrite (map_map ADR ADR_Group), combine_map_self. f_equal. f_equal.
  unfold groupby_categorical, buckets. rewrite map_map. cbn [fst snd].
  assert (Hk : forall k,
            (k, series_sum (map (fun rc : Row * option string => total_price (fst rc))
                   (group_rows String.compare snd k
                      (map (fun r => (r, ADR_Group (ADR r))) rows))))
            = (k, revenue rows k)).
  { intros k. f_equal. rewrite group_rows_tagged, map_map. done. }
  destruct observed.
  - erewrite List.filter_ext; [|intros k; apply existsb_tagged].
    apply map_ext. intros k. apply Hk.
  - apply map_ext. intros k. apply Hk.
Qed.





End Top3.


(* ===================================================================== *)
(** * Chart 3: one row per month *)
(* ===================================================================== *)

Section GroupFacts.
Import Py Pandas App.

Lemma unique_In (ks : list string) (x : string) :
  In x (unique String.compare ks) <-> In x ks.
Proof.
  induction ks as [|k ks IH]; simpl; [done|].
  rewrite filter_In, IH, string_key_eqb, negb_true_iff, bool_decide_eq_false.
  destruct (decide (x = k)) as [->|Hne]; [tauto|].
  split; [intros [<-|[? _]]; tauto | intros [<-|?]; [done | tauto]].
Qed.

Lemma unique_NoDup (ks : list string) : List.NoDup (unique String.compare ks).
Proof.
  induction ks as [|k ks IH]; simpl; [constructor|].
  constructor; [|by apply List.NoDup_filter].
  rewrite filter_In, string_key_eqb, negb_true_iff, bool_decide_eq_false. tauto.
Qed.

Lemma group_rows_month (k : string) (rows : list Row) :
  group_rows String.compare Month k rows = month_rows rows k.
Proof.
  unfold group_rows, month_rows. apply List.filter_ext. intros r.
  destruct (Month r) as [k'|].
  - rewrite string_key_eqb. apply bool_decide_ext. split; congruence.
  - by rewrite bool_decide_eq_false_2.
Qed.

Lemma insert_map {A B : Type} (leb : B -> B -> bool) (h : A -> B) (x : A) (l : list A) :
  insert leb (h x) (map h l) = map h (insert (fun a b => leb (h a) (h b)) x l).
Proof.
  induction l as [|y l IH]; simpl; [done|].
  destruct (leb (h x) (h y)); simpl; [done | by rewrite IH].
Qed.

Lemma isort_map {A B : Type} (leb : B -> B -> bool) (h : A -> B) (l : list A) :
  isort leb (map h l) = map h (isort (fun a b => leb (h a) (h b)) l).
Proof.
  induction l as [|x l IH]; simpl; [done|]. by rewrite IH, insert_map.
Qed.

Lemma index_of_lookup (l : list string) (x : string) (i : nat) :
  index_of x l = Some i -> l !! i = Some x.
Proof.
  revert i. induction l as [|y l IH]; intros i; simpl; [done|].
  destruct (String.eqb_spec y x) as [->|Hne].
  - by intros [= <-].
  - destruct (index_of x l) as [j|]; simpl; [|done].
    intros [= <-]. by apply IH.
Qed.

Lemma index_of_In (l : list string) (x : string) :
  In x l -> exists i, index_of x l = Some i.
Proof.
  induction l as [|y l IH]; simpl; [done|].
  destruct (String.eqb_spec y x) as [->|Hne]; [eauto|].
  intros [?|Hin]; [done|]. destruct (IH Hin) as [i ->]. simpl. eauto.
Qed.

(** The position of a month label in the calendar. *)
Lemma month_code_inj (x y : string) (i : nat) :
  index_of x MONTHS = Some i -> index_of y MONTHS = Some i -> x = y.
Proof.
  intros Hx Hy. apply index_of_lookup in Hx, Hy. congruence.
Qed.

Lemma strftime_b_In (d : date) : In (strftime_b d) MONTHS.
Proof. unfold strftime_b, MONTHS. destruct (d_month d); simpl; tauto. Qed.

Lemma Month_In (r : Row) (m : string) : Month r = Some m -> In m MONTHS.
Proof.
  unfold Month. destruct (check_in r) as [d|]; simpl; [|done].
  intros [= <-]. apply strftime_b_In.
Qed.

Lemma str_in_In (x : string) (l : list string) : str_in x l = true <-> In x l.
Proof.
  unfold str_in. rewrite existsb_exists. split.
  - intros (y & Hy & E). apply String.eqb_eq in E. by subst.
  - intros H. exists x. split; [done | apply String.eqb_refl].
Qed.

(** Sorted lists without repetition are determined by their elements. *)
Lemma sorted_unique {A : Type} (f : A -> nat) (l1 l2 : list A) :
  StronglySorted (fun a b => (f a < f b)%nat) l1 ->
  StronglySorted (fun a b => (f a < f b)%nat) l2 ->
  (forall x y, In x l1 -> In y l2 -> f x = f y -> x = y) ->
  (forall x, In x l1 <-> In x l2) ->
  l1 = l2.
Proof.
  intros H1. revert l2. induction H1 as [|a l1 Hs1 IH Ha]; intros l2 H2 Hinj Hel.
  - destruct l2 as [|b l2]; [done|]. exfalso. apply (Hel b). by left.
  - destruct H2 as [|b l2 Hs2 Hb].
    { exfalso. apply (Hel a). by left. }
    rewrite List.Forall_forall in Ha, Hb.
    assert (a = b) as <-.
    { assert (Hb1 : In b (a :: l1)) by (apply Hel; by left).
      assert (Ha2 : In a (b :: l2)) by (apply Hel; by left).
      destruct Hb1 as [->|Hb1]; [done|]. destruct Ha2 as [->|Ha2]; [done|].
      specialize (Ha _ Hb1). specialize (Hb _ Ha2). lia. }
    f_equal. apply IH; [done | |].
    + intros x y Hx Hy. apply Hinj; by right.
    + intros x. split; intros Hx.
      * assert (Hx' : In x (a :: l2)) by (apply Hel; by right).
        destruct Hx' as [<-|]; [|done]. specialize (Ha _ Hx). lia.
      * assert (Hx' : In x (a :: l1)) by (apply Hel; by right).
        destruct Hx' as [<-|]; [|done]. specialize (Hb _ Hx). lia.
Qed.

Lemma StronglySorted_filter {A : Type} (R : A -> A -> Prop) (p : A -> bool) (l : list A) :
  StronglySorted R l -> StronglySorted R (List.filter p l).
Proof.
  induction 1 as [|x l Hs IH Hx]; simpl; [constructor|].
  destruct (p x); [|done]. constructor; [done|].
  rewrite List.Forall_forall in *. intros y Hy. apply Hx.
  by apply filter_In in Hy as [? _].
Qed.

Lemma sorted_strict {A : Type} (f : A -> nat) (l : list A) :
  StronglySorted (fun a b => Nat.leb (f a) (f b) = true) l ->
  List.NoDup l ->
  (forall x y, In x l -> In y l -> f x = f y -> x = y) ->
  StronglySorted (fun a b => (f a < f b)%nat) l.
Proof.
  induction 1 as [|x l Hs IH Hx]; intros Hnd Hinj; [constructor|].
  apply List.NoDup_cons_iff in Hnd as [Hnx Hnd].
  constructor.
  - apply IH; [done|]. intros a b Ha Hb. apply Hinj; by right.
  - rewrite List.Forall_forall in *. intros y Hy.
    specialize (Hx y Hy). apply Nat.leb_le in Hx.
    destruct (decide (f x = f y)) as [E|Hne]; [|lia].
    exfalso. apply Hnx. apply Hinj in E as ->; [done | by left | by right].
Qed.

End GroupFacts.

Section YoY.
Import Py Pandas App.

Lemma month_code_In_inj (x y : string) :
  In x MONTHS -> In y MONTHS -> month_code x = month_code y -> x = y.
Proof.
  intros Hx Hy. unfold month_code.
  destruct (index_of_In _ _ Hx) as [i Hi], (index_of_In _ _ Hy) as [j Hj].
  rewrite Hi, Hj. simpl. intros ->. by apply (month_code_inj x y j).
Qed.

Lemma MONTHS_sorted :
  StronglySorted (fun a b => (month_code a < month_code b)%nat) MONTHS.
Proof.
  unfold MONTHS.
  repeat first
    [ apply SSorted_nil | apply SSorted_cons | apply List.Forall_nil
    | apply List.Forall_cons; [vm_compute; lia|] ].
Qed.

Lemma to_categorical_In (m : string) :
  In m MONTHS -> to_categorical MONTHS m = Some m.
Proof. intros H. unfold to_categorical. apply str_in_In in H. by rewrite H. Qed.

Lemma code_Some (cats : list string) (m : string) :
  code cats (Some m) = index_of m cats.
Proof. reflexivity. Qed.

Lemma filter_nonempty {A : Type} (p : A -> bool) (l : list A) :
  negb (Nat.eqb (length (List.filter p l)) 0) = true <->
  exists x, In x l /\ p x = true.
Proof.
  rewrite negb_true_iff, Nat.eqb_neq. split.
  - intros H. destruct (List.filter p l) as [|x r] eqn:E; [done|].
    exists x. apply filter_In. rewrite E. by left.
  - intros (x & Hx & Hp) E. apply length_zero_iff_nil in E.
    assert (In x (List.filter p l)) as Hin by (by apply filter_In).
    by rewrite E in Hin.
Qed.

Lemma Month_keys_In (rows : list Row) (k : string) :
  In k (omap Month rows) <-> exists r, In r rows /\ Month r = Some k.
Proof.
  rewrite <- list_elem_of_In, list_elem_of_omap. split.
  - intros (r & Hr & E). exists r. by rewrite <- list_elem_of_In.
  - intros (r & Hr & E). exists r. by rewrite list_elem_of_In.
Qed.

(** The group keys of line 109, sorted by calendar position, are the month
    labels that occur, in calendar order. *)
Lemma month_keys_sorted (rows : list Row) :
  isort (fun x y => Nat.leb (month_code x) (month_code y))
        (isort (key_leb String.compare) (unique String.compare (omap Month rows)))
  = List.filter (fun m => negb (Nat.eqb (length (month_rows rows m)) 0)) MONTHS.
Proof.
  set (K := isort (key_leb String.compare) (unique String.compare (omap Month rows))).
  assert (HK : forall k, In k K <-> exists r, In r rows /\ Month r = Some k).
  { intros k. unfold K. by rewrite isort_In, unique_In, Month_keys_In. }
  assert (HKM : forall k, In k K -> In k MONTHS).
  { intros k Hk. apply HK in Hk as (r & _ & E). by apply (Month_In r). }
  apply (sorted_unique month_code).
  - apply sorted_strict.
    + apply isort_sorted.
      * intros x y. rewrite Nat.leb_gt, Nat.leb_le. lia.
      * intros x y z. rewrite !Nat.leb_le. lia.
    + rewrite isort_perm. unfold K. rewrite isort_perm. apply unique_NoDup.
    + intros x y Hx Hy. apply isort_In in Hx, Hy. apply month_code_In_inj; auto.
  - apply StronglySorted_filter, MONTHS_sorted.
  - intros x y Hx Hy. apply isort_In in Hx. apply filter_In in Hy as [Hy _].
    apply month_code_In_inj; auto.
  - intros x. rewrite isort_In, HK, filter_In. unfold month_rows.
    rewrite filter_nonempty. split.
    + intros (r & Hr & E). split; [by apply (Month_In r)|].
      exists r. split; [done | by apply bool_decide_eq_true].
    + intros (_ & r & Hr & E). exists r. split; [done|].
      by apply bool_decide_eq_true in E.
Qed.

Lemma yoy_calendar (rows : list Row) :
  yoy rows
  = map (yoy_row rows)
        (List.filter (fun m => negb (Nat.eqb (length (month_rows rows m)) 0)) MONTHS).
Proof.
  unfold yoy, yoy_grouped, groupby. rewrite !map_map. cbn [fst snd].
  set (K := isort (key_leb String.compare) (unique String.compare (omap Month rows))).
  assert (HKM : forall k, In k K -> In k MONTHS).
  { intros k Hk. unfold K in Hk. apply isort_In, unique_In, Month_keys_In in Hk
      as (r & _ & E). by apply (Month_In r). }
  set (h := fun k : string =>
              (to_categorical MONTHS k,
               series_mean (map ADR (group_rows String.compare Month k rows)),
               series_count (map ADR (group_rows String.compare Month k rows)))).
  unfold sort_values.
  rewrite (nargsort_no_nan Nat.leb _
             (fun row => from_option id 0%nat (code MONTHS (fst (fst row)))) true).
  2:{ intros a Ha. apply in_map_iff in Ha as (k & <- & Hk). unfold h. cbn [fst snd].
      rewrite to_categorical_In, code_Some by auto.
      destruct (index_of_In _ _ (HKM _ Hk)) as [i ->]. done. }
  rewrite (isort_map _ h).
  rewrite (isort_ext _ (fun x y => Nat.leb (month_code x) (month_code y))).
  2:{ intros x y Hx Hy. unfold h. cbn [fst snd].
      rewrite !to_categorical_In, !code_Some by auto. done. }
  fold K. unfold K. rewrite month_keys_sorted.
  apply map_ext_in. intros k Hk. apply filter_In in Hk as [Hk _].
  unfold h, yoy_row. by rewrite to_categorical_In, group_rows_month.
Qed.

End YoY.


(* ===================================================================== *)
(** * Running the script *)
(* ===================================================================== *)

Section Monad.
Import Py Pandas App.

Lemma bind_Returns {A B : Type} (m : M A) (f : A -> M B) (s s' : State) (a : A) :
  m s = Returns a s' -> (m ≫= f) s = f a s'.
Proof. intros H. unfold mbind, M_bind. by rewrite H. Qed.

Lemma load_Returns (x : string) (s : State) (l : loc) (df : DataFrame) :
  env s !! x = Some l -> heap s !! l = Some df -> load x s = Returns df s.
Proof. intros H1 H2. unfold load. by rewrite H1, H2. Qed.

Lemma final_bind {A B : Type} (m : M A) (f : A -> M B) (s : State) :
  final ((m ≫= f) s) =
    match m s with
    | Returns a s' => final (f a s')
    | o => final o
    end.
Proof. unfold mbind, M_bind. by destruct (m s). Qed.

(** ** What is shown *)

Section ShowsOnly.
Context (P : Event -> Prop).

Lemma shows_only_ret {A : Type} (a : A) : shows_only P (mret a : M A).
Proof. intros s. exists []. split; [constructor | by rewrite app_nil_r]. Qed.

Lemma shows_only_show (e : Event) : P e -> shows_only P (show e).
Proof. intros He s. exists [e]. split; [by repeat constructor | done]. Qed.

Lemma shows_only_silent {A : Type} (m : M A) :
  (forall s, shown (final (m s)) = shown s) -> shows_only P m.
Proof.
  intros H s. exists []. split; [constructor | by rewrite app_nil_r, H].
Qed.

Lemma shows_only_load (x : string) : shows_only P (load x).
Proof.
  apply shows_only_silent. intros s. unfold load.
  destruct (env s !! x) as [l|]; [|done]. by destruct (heap s !! l).
Qed.

Lemma shows_only_bind_new (x : string) (df : DataFrame) : shows_only P (bind_new x df).
Proof. by apply shows_only_silent. Qed.

Lemma shows_only_setitem (x name : string) (c : Categorical) :
  shows_only P (setitem_var x name c).
Proof.
  apply shows_only_silent. intros s. unfold setitem_var.
  destruct (env s !! x) as [l|]; [|done]. by destruct (heap s !! l).
Qed.

Lemma shows_only_stop {A : Type} : shows_only P (stop : M A).
Proof. by apply shows_only_silent. Qed.

Lemma shows_only_diverge {A : Type} : shows_only P (diverge : M A).
Proof. by apply shows_only_silent. Qed.

Lemma shows_only_lift {A : Type} (r : result A) : shows_only P (lift r).
Proof. apply shows_only_silent. by destruct r. Qed.

Lemma shows_only_bind {A B : Type} (m : M A) (f : A -> M B) :
  shows_only P m -> (forall a, shows_only P (f a)) -> shows_only P (m ≫= f).
Proof.
  intros Hm Hf s. rewrite final_bind.
  destruct (Hm s) as (evs & Hevs & E). destruct (m s) as [a s'| s' | msg s' | s'];
    simpl in E; try (exists evs; by split).
  destruct (Hf a s') as (evs' & Hevs' & E').
  exists (evs ++ evs'). split; [by apply List.Forall_app|].
  by rewrite E', E, app_assoc.
Qed.

Lemma shows_only_for_each {A : Type} (l : list A) (body : A -> M unit) :
  (forall a, shows_only P (body a)) -> shows_only P (for_each l body).
Proof.
  intros H. induction l as [|x l IH]; simpl.
  - apply shows_only_ret.
  - apply shows_only_bind; [apply H | by intros _].
Qed.

End ShowsOnly.

(** ** What is stored *)









End Monad.

Section Chart2.
Import Py Pandas App.

Lemma setitem_var_Returns (x name : string) (c : Categorical) (s : State)
    (l : loc) (df : DataFrame) :
  env s !! x = Some l -> heap s !! l = Some df ->
  setitem_var x name c s
  = Returns tt (mkState (<[l := setitem df name c]> (heap s)) (env s) (shown s)).
Proof. intros H1 H2. unfold setitem_var. by rewrite H1, H2. Qed.

Lemma insert_snoc {A : Type} (l : list A) (x y : A) :
  <[length l := y]> (l ++ [x]) = l ++ [y].
Proof. induction l as [|a l IH]; simpl; [done | by rewrite IH]. Qed.

Lemma chart2_run (observed : bool) (selected_month : string) (s : State)
    (lf : loc) (f : DataFrame) :
  env s !! "filtered" = Some lf -> heap s !! lf = Some f ->
  chart2 observed selected_month s
  = Returns tt (mkState (heap s ++ [month_table f selected_month])
                        (<["month_data" := length (heap s)]> (env s))
                        (shown s ++ chart2_shown observed f selected_month)).
Proof.
  intros H1 H2. unfold chart2.
  erewrite bind_Returns; [|reflexivity].
  erewrite bind_Returns; [|by apply (load_Returns _ _ lf f)].
  erewrite bind_Returns; [|reflexivity].
  erewrite bind_Returns.
  2:{ apply (load_Returns _ _ (length (heap s)) (month_data f selected_month));
        cbn [env heap].
      - apply lookup_insert_eq.
      - by apply list_lookup_middle. }
  rewrite cut_ADR_Group. cbn [lift].
  erewrite bind_Returns; [|reflexivity].
  cbn [heap env shown].
  erewrite bind_Returns.
  2:{ apply (setitem_var_Returns _ _ _ _ (length (heap s))
               (month_data f selected_month)); cbn [env heap].
      - apply lookup_insert_eq.
      - by apply list_lookup_middle. }
  cbn [heap env shown]. rewrite insert_snoc.
  fold (month_table f selected_month).
  erewrite bind_Returns.
  2:{ apply (load_Returns _ _ (length (heap s)) (month_table f selected_month));
        cbn [env heap].
      - apply lookup_insert_eq.
      - by apply list_lookup_middle. }
  erewrite bind_Returns; [|reflexivity].
  unfold chart2_shown. cbv zeta.
  set (t := top3 observed (month_table f selected_month)).
  unfold show, mbind, M_bind, mret, M_ret. cbn [heap env shown].
  destruct (negb (length t =? 0)%nat); [destruct (length t <? 3)%nat|];
    cbn [heap env shown]; rewrite <- ?app_assoc; reflexivity.
Qed.

End Chart2.

Section Script.
Import Py Pandas App.

Lemma select_range_pair (rows : list Row) (inp : Inputs) (s e : date) :
  selected_dates inp = DateTuple [s; e] ->
  select_range inp (load_data rows) = Returns tt (filtered_state rows s e).
Proof.
  intros H. unfold select_range.
  erewrite bind_Returns; [|by apply (load_Returns _ _ 0%nat (mkDF rows []))].
  erewrite bind_Returns; [|reflexivity].
  erewrite bind_Returns; [|reflexivity].
  rewrite H. reflexivity.
Qed.

Lemma select_range_reject (rows : list Row) (inp : Inputs) :
  (forall s e, selected_dates inp <> DateTuple [s; e]) ->
  select_range inp (load_data rows) = Stops (rejected_state rows).
Proof.
  intros H. unfold select_range.
  erewrite bind_Returns; [|by apply (load_Returns _ _ 0%nat (mkDF rows []))].
  erewrite bind_Returns; [|reflexivity].
  erewrite bind_Returns; [|reflexivity].
  destruct (selected_dates inp) as [d|[|a [|b [|c ds]]]]; try reflexivity.
  by destruct (H a b).
Qed.

Lemma run_pair (observed : bool) (fuel : nat) (rows : list Row) (inp : Inputs)
    (s e : date) :
  selected_dates inp = DateTuple [s; e] ->
  run observed fuel rows inp = dispatch observed fuel inp (filtered_state rows s e).
Proof.
  intros H. unfold run, script.
  by erewrite bind_Returns; [|by apply select_range_pair].
Qed.

Lemma run_reject (observed : bool) (fuel : nat) (rows : list Row) (inp : Inputs) :
  (forall s e, selected_dates inp <> DateTuple [s; e]) ->
  run observed fuel rows inp = Stops (rejected_state rows).
Proof.
  intros H. unfold run, script, mbind, M_bind.
  by rewrite select_range_reject.
Qed.

Lemma dispatch_routine (observed : bool) (fuel : nat) (rows : list Row) (inp : Inputs)
    (s e : date) :
  dispatch observed fuel inp (filtered_state rows s e)
  = routine observed fuel inp (dispatch_state rows s e).
Proof.
  unfold dispatch.
  erewrite bind_Returns; [|reflexivity].
  erewrite bind_Returns; [|reflexivity].
  unfold dispatch_state, filtered_state. cbn [heap env shown].
  rewrite <- app_assoc. reflexivity.
Qed.

Lemma dispatch_state_filtered (rows : list Row) (s e : date) :
  env (dispatch_state rows s e) !! "filtered" = Some 1%nat /\
  heap (dispatch_state rows s e) !! 1%nat = Some (filtered (mkDF rows []) s e).
Proof. split; reflexivity. Qed.

Lemma dispatch_state_data (rows : list Row) (s e : date) :
  env (dispatch_state rows s e) !! "data" = Some 0%nat /\
  heap (dispatch_state rows s e) !! 0%nat = Some (mkDF rows []).
Proof. split; reflexivity. Qed.

End Script.

(* ===================================================================== *)
(** * Chart 2: chart, caption and warning *)
(* ===================================================================== *)

Section Chart2Shown.
Import Py Pandas App.



Lemma routine_chart2 (observed : bool) (fuel : nat) (inp : Inputs) :
  selected_chart inp = "Top 3 ADR Revenue Share by Month" ->
  routine observed fuel inp = chart2 observed (selected_month inp).
Proof. intros H. unfold routine. by rewrite H. Qed.

Lemma run_chart2 (observed : bool) (fuel : nat) (rows : list Row) (inp : Inputs)
    (s e : date) :
  selected_dates inp = DateTuple [s; e] ->
  selected_chart inp = "Top 3 ADR Revenue Share by Month" ->
  run observed fuel rows inp
  = Returns tt
      (mkState
         (heap (dispatch_state rows s e)
          ++ [month_table (filtered (mkDF rows []) s e) (selected_month inp)])
         (<["month_data" := 2%nat]> (env (dispatch_state rows s e)))
         (shown (dispatch_state rows s e)
          ++ chart2_shown observed (filtered (mkDF rows []) s e) (selected_month inp))).
Proof.
  intros Hd Hc.
  rewrite (run_pair _ _ _ _ s e Hd), dispatch_routine, routine_chart2 by done.
  by rewrite (chart2_run _ _ _ 1%nat (filtered (mkDF rows []) s e)).
Qed.

Lemma sidebar_quiet (rows : list Row) (s e : date) :
  Forall (fun ev => is_warning ev = false /\ is_caption ev = false
                    /\ is_chart ev = false)
         (shown (dispatch_state rows s e)).
Proof. repeat constructor. Qed.

(** With [observed=True] the routine does what its branches say. *)
Lemma chart2_observed_groups (fuel : nat) (rows : list Row) (inp : Inputs) (s e : date) :
  selected_dates inp = DateTuple [s; e] ->
  selected_chart inp = "Top 3 ADR Revenue Share by Month" ->
  let f := filtered (mkDF rows []) s e in
  let t := top3 true (month_table f (selected_month inp)) in
  exists st,
    run true fuel rows inp = Returns tt st /\
    (df_rows (month_data f (selected_month inp)) = [] ->
     In (Warning "No data available.") (shown st) /\
     Forall (fun ev => is_chart ev = false) (shown st)) /\
    ((0 < length t < 3)%nat ->
     In (PlotlyChart (Pie t)) (shown st) /\
     In (Caption ("⚠️ Only " +:+ pretty (length t) +:+ " ADR groups found for "
                  +:+ selected_month inp +:+ ".")) (shown st)).
Proof.
  intros Hd Hc f t. eexists. split; [by apply run_chart2|].
  cbn [shown]. unfold chart2_shown. fold f. cbv zeta. fold t. split.
  - intros Hrows.
    assert (Ht : t = []).
    { unfold t. rewrite top3_buckets, Hrows. reflexivity. }
    rewrite Ht. cbn [length Nat.eqb negb]. split.
    + rewrite !in_app_iff. right. right. by left.
    + apply List.Forall_app. split.
      * eapply List.Forall_impl; [|apply sidebar_quiet]. simpl. tauto.
      * repeat constructor.
  - intros [H1 H2].
    assert (E1 : negb (Nat.eqb (length t) 0) = true).
    { apply negb_true_iff, Nat.eqb_neq. lia. }
    assert (E2 : Nat.ltb (length t) 3 = true) by (apply Nat.ltb_lt; lia).
    rewrite E1, E2. rewrite !in_app_iff. simpl. tauto.
Qed.

End Chart2Shown.



(* ===================================================================== *)
(** * The store across the routines *)
(* ===================================================================== *)

Section Store.
Import Py Pandas App.

Lemma final_Returns {A B : Type} (m : M A) (f : A -> M B) (s s' : State) (a : A) :
  m s = Returns a s' -> final ((m ≫= f) s) = final (f a s').
Proof. intros H. by rewrite (bind_Returns _ _ _ _ _ H). Qed.


Lemma routine_cases (observed : bool) (fuel : nat) (inp : Inputs) :
  (selected_chart inp = "Monthly ADR Distribution" /\
   routine observed fuel inp = chart1) \/
  (selected_chart inp = "Top 3 ADR Revenue Share by Month" /\
   routine observed fuel inp = chart2 observed (selected_month inp)) \/
  (selected_chart inp = "Year-over-Year Trends" /\
   routine observed fuel inp = chart3) \/
  (selected_chart inp = "Seasonal Analysis (Interactive)" /\
   routine observed fuel inp = chart4 (slider_input inp)) \/
  (selected_chart inp = "ADR Bin Distribution" /\
   routine observed fuel inp = chart5 observed fuel) \/
  (~ In (selected_chart inp) chart_options /\
   routine observed fuel inp = mret tt).
Proof.
  unfold routine. cbv zeta.
  destruct (String.eqb_spec (selected_chart inp) "Monthly ADR Distribution");
    [tauto|].
  destruct (String.eqb_spec (selected_chart inp) "Top 3 ADR Revenue Share by Month");
    [tauto|].
  destruct (String.eqb_spec (selected_chart inp) "Year-over-Year Trends"); [tauto|].
  destruct (String.eqb_spec (selected_chart inp) "Seasonal Analysis (Interactive)");
    [tauto|].
  destruct (String.eqb_spec (selected_chart inp) "ADR Bin Distribution"); [tauto|].
  do 5 right. split; [|done]. unfold chart_options. simpl. intuition congruence.
Qed.


End Store.




(* ===================================================================== *)
(** * The guard on the date range *)
(* ===================================================================== *)

Section Guard.
Import Py Pandas App.

Ltac shows_step :=
  first
    [ apply shows_only_bind; [|intros ?]
    | apply shows_only_show; reflexivity
    | apply shows_only_load
    | apply shows_only_bind_new
    | apply shows_only_setitem
    | apply shows_only_lift
    | apply shows_only_ret
    | apply shows_only_diverge
    | apply shows_only_for_each; intros ?
    | match goal with
      | |- shows_only _ (if ?b then _ else _) => destruct b
      | |- shows_only _ (match ?x with Some _ => _ | None => _ end) => destruct x
      end ].

(** No routine shows an error message. *)
Lemma routine_no_error (observed : bool) (fuel : nat) (inp : Inputs) :
  shows_only (fun ev => is_error ev = false) (routine observed fuel inp).
Proof.
  unfold routine, chart1, chart2, chart3, chart4, chart5. cbv zeta.
  repeat shows_step.
Qed.

Lemma run_chart1 (observed : bool) (fuel : nat) (rows : list Row) (inp : Inputs)
    (s e : date) :
  selected_dates inp = DateTuple [s; e] ->
  selected_chart inp = "Monthly ADR Distribution" ->
  run observed fuel rows inp
  = Returns tt
      (mkState (heap (dispatch_state rows s e)) (env (dispatch_state rows s e))
         (shown (dispatch_state rows s e)
          ++ [ Subheader "Monthly ADR Distribution by Room Type";
               PlotlyChart (Scatter (grouped1 (df_rows (filtered (mkDF rows []) s e)))) ])).
Proof.
  intros Hd Hc. rewrite (run_pair _ _ _ _ s e Hd), dispatch_routine.
  unfold routine. rewrite Hc. reflexivity.
Qed.

Lemma run_chart3 (observed : bool) (fuel : nat) (rows : list Row) (inp : Inputs)
    (s e : date) :
  selected_dates inp = DateTuple [s; e] ->
  selected_chart inp = "Year-over-Year Trends" ->
  run observed fuel rows inp
  = Returns tt
      (mkState (heap (dispatch_state rows s e)) (env (dispatch_state rows s e))
         (shown (dispatch_state rows s e)
          ++ [ Subheader "Year-over-Year ADR and Booking Trends";
               PlotlyChart (DualAxis (yoy (df_rows (filtered (mkDF rows []) s e)))) ])).
Proof.
  intros Hd Hc. rewrite (run_pair _ _ _ _ s e Hd), dispatch_routine.
  unfold routine. rewrite Hc. reflexivity.
Qed.

End Guard.

(** Claim C9.  When the date picker has not returned a pair of dates, the run
    shows the error message and stops: nothing else is shown, no chart
    among it, and no filtered table exists.  When it has returned a pair, the
    table is filtered by it, no error is shown, the dashboard title is shown
    and the selected routine runs on the filtered table (charts 1 and 3 end
    with their chart shown).  Every interaction is a run of its own from the
    loaded table, so what an earlier interaction did, a rejected one
    included, does not reach a later one. *)
Theorem date_range_guard
    (observed : bool) (fuel : nat) (rows : list Row) (inp : App.Inputs) :
  ((forall s e : date, App.selected_dates inp <> App.DateTuple [s; e]) ->
   App.run observed fuel rows inp = App.Stops (rejected_state rows) /\
   App.shown (rejected_state rows)
   = sidebar_shown rows ++ [App.Error "⚠️ Please select both a start and end date."] /\
   Forall (fun ev => App.is_chart ev = false) (App.shown (rejected_state rows)) /\
   App.table_of "filtered" (rejected_state rows) = None) /\
  (forall s e : date,
     App.selected_dates inp = App.DateTuple [s; e] ->
     App.run observed fuel rows inp
     = App.routine observed fuel inp (dispatch_state rows s e) /\
     App.table_of "filtered" (dispatch_state rows s e)
     = Some (App.filtered (Pandas.mkDF rows []) s e) /\
     (exists evs,
        App.shown (App.final (App.run observed fuel rows inp))
        = sidebar_shown rows ++
          [ App.Selectbox "Select Chart" App.chart_options;
            App.Title "📊 Hotel ADR Dashboard" ] ++ evs /\
        Forall (fun ev => App.is_error ev = false) evs) /\
     (App.selected_chart inp = "Monthly ADR Distribution" ->
      exists st,
        App.run observed fuel rows inp = App.Returns tt st /\
        In (App.PlotlyChart
              (App.Scatter (App.grouped1
                 (Pandas.df_rows (App.filtered (Pandas.mkDF rows []) s e)))))
           (App.shown st)) /\
     (App.selected_chart inp = "Year-over-Year Trends" ->
      exists st,
        App.run observed fuel rows inp = App.Returns tt st /\
        In (App.PlotlyChart
              (App.DualAxis (App.yoy
                 (Pandas.df_rows (App.filtered (Pandas.mkDF rows []) s e)))))
           (App.shown st))) /\
  (forall earlier : list App.Inputs,
     App.session observed fuel rows (earlier ++ [inp])
     = App.session observed fuel rows earlier ++ [App.run observed fuel rows inp]).
Proof.
  split; [|split].
  - intros H. split; [by apply run_reject|]. split; [done|]. split; [|done].
    unfold rejected_state, sidebar_shown. cbn [App.shown]. repeat constructor.
  - intros s e Hd. split; [|split; [|split; [|split]]].
    + by rewrite (run_pair _ _ _ _ s e Hd), dispatch_routine.
    + done.
    + rewrite (run_pair _ _ _ _ s e Hd), dispatch_routine.
      destruct (routine_no_error observed fuel inp (dispatch_state rows s e))
        as (evs & Hevs & E).
      exists evs. split; [|done]. rewrite E. unfold dispatch_state.
      cbn [App.shown]. by rewrite <- app_assoc.
    + intros Hc. eexists. split; [by apply run_chart1|].
      cbn [App.shown]. rewrite !in_app_iff. simpl. tauto.
    + intros Hc. eexists. split; [by apply run_chart3|].
      cbn [App.shown]. rewrite !in_app_iff. simpl. tauto.
  - intros earlier. unfold App.session. by rewrite map_app.
Qed.

Lemma date_range_guard_witness :
  App.run false 20 two_januaries ask_half_range
  = App.Stops (rejected_state two_januaries) /\
  (exists st,
     App.run false 20 two_januaries (ask "Year-over-Year Trends") = App.Returns tt st /\
     In (App.PlotlyChart
           (App.DualAxis (App.yoy
              (Pandas.df_rows
                 (App.filtered (Pandas.mkDF two_januaries [])
                    (mkdate 2023 January 1) (mkdate 2024 December 31))))))
        (App.shown st)).
Proof.
  split.
  - apply (proj1 (date_range_guard false 20 two_januaries ask_half_range)).
    intros s e H. discriminate H.
  - apply (proj2 (proj2 (proj2 (proj2
             (proj1 (proj2 (date_range_guard false 20 two_januaries
                              (ask "Year-over-Year Trends")))
                (mkdate 2023 January 1) (mkdate 2024 December 31) eq_refl))))).
    reflexivity.
Defined.

(* ===================================================================== *)
(** * Chart 5: the loop inside the run *)
(* ===================================================================== *)

Section Chart5.
Import Py Pandas App.



End Chart5.



(* ===================================================================== *)
(** * The date range: reversed and default selections *)
(* ===================================================================== *)

Section DateRange.
Import Py Pandas App.

Lemma date_le_refl (a : date) : date_le a a.
Proof. unfold date_le. lia. Qed.

Lemma date_le_trans (a b c : date) : date_le a b -> date_le b c -> date_le a c.
Proof. unfold date_le. lia. Qed.

Lemma date_le_total (a b : date) : date_le a b \/ date_le b a.
Proof. unfold date_le. lia. Qed.

Lemma date_min_le (a b : date) : date_le (date_min a b) a /\ date_le (date_min a b) b.
Proof.
  unfold date_min. destruct (date_leb a b) eqn:E.
  - apply date_leb_le in E. split; [apply date_le_refl | done].
  - split; [|apply date_le_refl].
    destruct (date_le_total a b) as [H|H]; [|done].
    apply date_leb_le in H. congruence.
Qed.

Lemma date_max_ge (a b : date) : date_le a (date_max a b) /\ date_le b (date_max a b).
Proof.
  unfold date_max. destruct (date_leb a b) eqn:E.
  - apply date_leb_le in E. split; [done | apply date_le_refl].
  - split; [apply date_le_refl|].
    destruct (date_le_total a b) as [H|H]; [|done].
    apply date_leb_le in H. congruence.
Qed.

Lemma fold_date_min_le (ds : list date) (d : date) :
  forall x, In x (d :: ds) -> date_le (fold_left date_min ds d) x.
Proof.
  revert d. induction ds as [|y ds IH]; intros d x Hx; simpl.
  - destruct Hx as [<-|[]]. apply date_le_refl.
  - assert (Hm : date_le (fold_left date_min ds (date_min d y)) (date_min d y))
      by (apply IH; by left).
    destruct (date_min_le d y) as [H1 H2].
    destruct Hx as [<-|[<-|Hx]].
    + by apply (date_le_trans _ (date_min d y)).
    + by apply (date_le_trans _ (date_min d y)).
    + apply IH. by right.
Qed.

Lemma fold_date_max_ge (ds : list date) (d : date) :
  forall x, In x (d :: ds) -> date_le x (fold_left date_max ds d).
Proof.
  revert d. induction ds as [|y ds IH]; intros d x Hx; simpl.
  - destruct Hx as [<-|[]]. apply date_le_refl.
  - assert (Hm : date_le (date_max d y) (fold_left date_max ds (date_max d y)))
      by (apply IH; by left).
    destruct (date_max_ge d y) as [H1 H2].
    destruct Hx as [<-|[<-|Hx]].
    + by apply (date_le_trans _ (date_max d y)).
    + by apply (date_le_trans _ (date_max d y)).
    + apply IH. by right.
Qed.

Lemma In_omap_id {A : Type} (l : list (option A)) (x : A) :
  In x (omap id l) <-> In (Some x) l.
Proof.
  rewrite <- !list_elem_of_In, list_elem_of_omap. split.
  - intros (o & Ho & Hx). simpl in Hx. by subst.
  - intros H. by exists (Some x).
Qed.

Lemma reduce_dates_min_le (rows : list Row) (lo : date) (r : Row) (d : date) :
  reduce_dates date_min (map check_in rows) = Some lo ->
  In r rows -> check_in r = Some d -> date_le lo d.
Proof.
  unfold reduce_dates. intros H Hr Hd.
  assert (Hin : In d (omap id (map check_in rows))).
  { apply In_omap_id. rewrite <- Hd. by apply in_map. }
  destruct (omap id (map check_in rows)) as [|d0 ds]; [done|].
  injection H as <-. by apply fold_date_min_le.
Qed.

Lemma reduce_dates_max_ge (rows : list Row) (hi : date) (r : Row) (d : date) :
  reduce_dates date_max (map check_in rows) = Some hi ->
  In r rows -> check_in r = Some d -> date_le d hi.
Proof.
  unfold reduce_dates. intros H Hr Hd.
  assert (Hin : In d (omap id (map check_in rows))).
  { apply In_omap_id. rewrite <- Hd. by apply in_map. }
  destruct (omap id (map check_in rows)) as [|d0 ds]; [done|].
  injection H as <-. by apply fold_date_max_ge.
Qed.

Lemma filter_ext_in' {A : Type} (p q : A -> bool) (l : list A) :
  (forall x, In x l -> p x = q x) -> List.filter p l = List.filter q l.
Proof.
  induction l as [|x l IH]; intros H; [done|].
  simpl. rewrite (H x) by (by left). rewrite IH; [done|].
  intros y Hy. apply H. by right.
Qed.

End DateRange.

(** A date range whose end lies before its start selects no row. *)
Theorem filtered_reversed_range_empty
    (data : Pandas.DataFrame) (start_date end_date : date) :
  ~ date_le start_date end_date ->
  Pandas.df_rows (App.filtered data start_date end_date) = [].
Proof.
  intros H. rewrite filtered_rows. apply filter_false. intros r _.
  destruct (App.filter_mask start_date end_date r) eqn:E; [|done].
  apply filter_mask_spec in E as (d & _ & H1 & H2 & _).
  exfalso. apply H. by apply (date_le_trans _ d).
Qed.

Lemma filtered_reversed_range_empty_witness :
  Pandas.df_rows (App.filtered (Pandas.mkDF two_januaries [])
                    (mkdate 2024 February 1) (mkdate 2024 January 1)) = [].
Proof.
  apply filtered_reversed_range_empty. unfold date_le. simpl. lia.
Defined.

(** The range the date picker starts with, from the earliest to the latest
    check-in of the loaded table, keeps every row that has a check-in date
    and a recognized room type, and only those. *)
Theorem filtered_default_range
    (rows : list Row) (min_date max_date : date) :
  App.reduce_dates App.date_min (map check_in rows) = Some min_date ->
  App.reduce_dates App.date_max (map check_in rows) = Some max_date ->
  Pandas.df_rows (App.filtered (Pandas.mkDF rows []) min_date max_date)
  = List.filter
      (fun r => bool_decide (is_Some (check_in r))
                && Py.str_in (Room_Type r) App.RECOGNIZED)
      rows.
Proof.
  intros Hmin Hmax. rewrite filtered_rows. cbn [Pandas.df_rows].
  apply filter_ext_in'. intros r Hr. unfold App.filter_mask.
  destruct (check_in r) as [d|] eqn:Hd.
  - rewrite bool_decide_eq_true_2 by eauto.
    pose proof (reduce_dates_min_le _ _ _ _ Hmin Hr Hd) as H1.
    pose proof (reduce_dates_max_ge _ _ _ _ Hmax Hr Hd) as H2.
    apply date_leb_le in H1, H2. by rewrite H1, H2.
  - rewrite bool_decide_eq_false_2; [done|]. by intros [? ?].
Qed.

Lemma filtered_default_range_witness :
  Pandas.df_rows (App.filtered (Pandas.mkDF two_januaries [])
                    (mkdate 2023 January 5) (mkdate 2024 January 9))
  = List.filter
      (fun r => bool_decide (is_Some (check_in r))
                && Py.str_in (Room_Type r) App.RECOGNIZED)
      two_januaries.
Proof.
  apply filtered_default_range; reflexivity.
Defined.

(* ===================================================================== *)
(** * Grouping keeps every row once *)
(* ===================================================================== *)

Section Partition.
Import Py Pandas App.
Context {A K : Type} (key : A -> option K) (sel : K -> A -> bool).
Hypothesis sel_key : forall k r, sel k r = true <-> key r = Some k.

Lemma list_sum_map_add (f g : K -> nat) (ks : list K) :
  list_sum (map (fun k => f k + g k)%nat ks)
  = (list_sum (map f ks) + list_sum (map g ks))%nat.
Proof. induction ks as [|k ks IH]; simpl; [done | rewrite IH; lia]. Qed.

Lemma list_sum_zero (f : K -> nat) (ks : list K) :
  (forall k, In k ks -> f k = 0%nat) -> list_sum (map f ks) = 0%nat.
Proof.
  induction ks as [|k ks IH]; intros H; simpl; [done|].
  rewrite (H k) by (by left). rewrite IH; [done|]. intros; apply H; by right.
Qed.

(** A row is selected by exactly one key of a list without repetition that
    holds its key. *)
Lemma sel_once (ks : list K) (r : A) (k0 : K) :
  List.NoDup ks -> key r = Some k0 -> In k0 ks ->
  list_sum (map (fun k => if sel k r then 1 else 0)%nat ks) = 1%nat.
Proof.
  intros Hnd Hr. induction Hnd as [|k ks Hk Hnd IH]; intros Hin; [done|].
  simpl. destruct (sel k r) eqn:E.
  - apply sel_key in E. assert (k = k0) as -> by congruence.
    rewrite list_sum_zero; [done|]. intros k' Hk'.
    destruct (sel k' r) eqn:E'; [|done]. apply sel_key in E'.
    assert (k' = k0) as -> by congruence. done.
  - destruct Hin as [->|Hin]; [|by apply IH].
    apply sel_key in Hr. congruence.
Qed.

Lemma sel_none (ks : list K) (r : A) :
  key r = None ->
  list_sum (map (fun k => if sel k r then 1 else 0)%nat ks) = 0%nat.
Proof.
  intros Hr. apply list_sum_zero. intros k _.
  destruct (sel k r) eqn:E; [|done]. apply sel_key in E. congruence.
Qed.

(** Over keys without repetition that cover the keys of the rows, the
    groups' sizes add up to the number of rows that have a key. *)
Lemma groups_partition (p : A -> bool) (ks : list K) (rows : list A) :
  List.NoDup ks ->
  (forall r k, In r rows -> key r = Some k -> In k ks) ->
  list_sum (map (fun k => length (List.filter p (List.filter (sel k) rows))) ks)
  = length (List.filter (fun r => bool_decide (is_Some (key r)) && p r) rows).
Proof.
  intros Hnd. induction rows as [|r rows IH]; intros Hcov.
  - simpl. by apply list_sum_zero.
  - assert (IH' := IH (fun r' k Hr' => Hcov r' k (or_intror Hr'))). clear IH.
    transitivity
      (list_sum (map (fun k => (if sel k r then 1 else 0) * (if p r then 1 else 0)
                               + length (List.filter p (List.filter (sel k) rows)))%nat ks)).
    { f_equal. apply map_ext. intros k. simpl.
      destruct (sel k r); simpl; [|done]. destruct (p r); simpl; lia. }
    rewrite list_sum_map_add, IH'. simpl.
    destruct (key r) as [k0|] eqn:Hr.
    + rewrite bool_decide_eq_true_2 by eauto. simpl.
      assert (Hone := sel_once ks r k0 Hnd Hr (Hcov r k0 (or_introl eq_refl) Hr)).
      destruct (p r); simpl.
      * erewrite map_ext; [rewrite Hone|]; [done|]. intros; simpl; lia.
      * rewrite list_sum_zero; [done|]. intros; lia.
    + rewrite bool_decide_eq_false_2 by (by intros [? ?]). simpl.
      rewrite list_sum_zero; [done|]. intros k _.
      destruct (sel k r) eqn:E; [|done]. apply sel_key in E. congruence.
Qed.

End Partition.

Section GroupByFacts.
Import Py Pandas App.
Context {A K : Type} (cmp : K -> K -> comparison).
Hypothesis cmp_eq : forall a b, cmp a b = Eq <-> a = b.

Lemma key_eqb_eq (a b : K) : key_eqb cmp a b = true <-> a = b.
Proof.
  unfold key_eqb. rewrite <- cmp_eq. destruct (cmp a b); split; congruence.
Qed.

Lemma unique_In_cmp (ks : list K) (x : K) : In x (unique cmp ks) <-> In x ks.
Proof.
  induction ks as [|k ks IH]; simpl; [done|].
  rewrite filter_In, IH, negb_true_iff.
  destruct (key_eqb cmp x k) eqn:E.
  - apply key_eqb_eq in E. subst. split; [intros [?|[_ ?]]; [by left | done] | by left].
  - split; [intros [<-|[? _]]; tauto|]. intros [<-|?]; [|tauto].
    assert (key_eqb cmp k k = true) by (by apply key_eqb_eq). congruence.
Qed.

Lemma unique_NoDup_cmp (ks : list K) : List.NoDup (unique cmp ks).
Proof.
  induction ks as [|k ks IH]; simpl; [constructor|].
  constructor; [|by apply List.NoDup_filter].
  rewrite filter_In, negb_true_iff. intros [_ E].
  assert (key_eqb cmp k k = true) by (by apply key_eqb_eq). congruence.
Qed.

Lemma group_sel_key (key : A -> option K) (k : K) (r : A) :
  match key r with Some k' => key_eqb cmp k' k | None => false end = true
  <-> key r = Some k.
Proof.
  destruct (key r) as [k'|]; [|done]. rewrite key_eqb_eq. split; congruence.
Qed.

Lemma In_omap_key (key : A -> option K) (rows : list A) (k : K) :
  In k (omap key rows) <-> exists r, In r rows /\ key r = Some k.
Proof.
  rewrite <- list_elem_of_In, list_elem_of_omap. split.
  - intros (r & Hr & E). exists r. by rewrite <- list_elem_of_In.
  - intros (r & Hr & E). exists r. by rewrite list_elem_of_In.
Qed.

Lemma groupby_keys_NoDup (key : A -> option K) (rows : list A) :
  List.NoDup (map fst (groupby cmp key rows)).
Proof.
  unfold groupby. rewrite map_map. cbn [fst]. rewrite map_id.
  rewrite isort_perm. apply unique_NoDup_cmp.
Qed.

Lemma groupby_keys_cover (key : A -> option K) (rows : list A) (r : A) (k : K) :
  In r rows -> key r = Some k ->
  In k (isort (key_leb cmp) (unique cmp (omap key rows))).
Proof.
  intros Hr Hk. apply isort_In, unique_In_cmp, In_omap_key. eauto.
Qed.

Lemma groupby_In (key : A -> option K) (rows : list A) (k : K) (g : list A) :
  In (k, g) (groupby cmp key rows) ->
  g = group_rows cmp key k rows /\ exists r, In r rows /\ key r = Some k.
Proof.
  unfold groupby. intros H. apply in_map_iff in H as (k' & [= <- <-] & Hk).
  split; [done|].
  apply (proj1 (isort_In _ _ _)) in Hk. apply (proj1 (unique_In_cmp _ _)) in Hk.
  by apply (proj1 (In_omap_key _ _ _)) in Hk.
Qed.

(** The sizes of the groups, counted over the rows that satisfy [p], add up
    to the number of such rows that have a key. *)
Lemma groupby_partition (key : A -> option K) (p : A -> bool) (rows : list A) :
  list_sum (map (fun g => length (List.filter p (snd g))) (groupby cmp key rows))
  = length (List.filter (fun r => bool_decide (is_Some (key r)) && p r) rows).
Proof.
  unfold groupby. rewrite map_map. cbn [snd]. unfold group_rows.
  apply (groups_partition key
           (fun k r => match key r with Some k' => key_eqb cmp k' k | None => false end)).
  - intros k r. apply group_sel_key.
  - rewrite isort_perm. apply unique_NoDup_cmp.
  - intros r k. apply groupby_keys_cover.
Qed.

End GroupByFacts.

Section Totals.
Import Py Pandas App.

Lemma series_count_filter {A B : Type} (f : A -> option B) (l : list A) :
  series_count (map f l) = length (List.filter (fun r => bool_decide (is_Some (f r))) l).
Proof.
  unfold series_count. induction l as [|x l IH]; [done|].
  simpl in *. destruct (f x) as [b|]; simpl; [exact (f_equal S IH) | exact IH].
Qed.

Lemma MONTHS_NoDup : List.NoDup MONTHS.
Proof.
  unfold MONTHS. repeat (constructor; [simpl; intuition discriminate|]). constructor.
Qed.

Lemma list_sum_filter_nonzero {K : Type} (f : K -> nat) (q : K -> bool) (ks : list K) :
  (forall k, q k = false -> f k = 0%nat) ->
  list_sum (map f (List.filter q ks)) = list_sum (map f ks).
Proof.
  intros H. induction ks as [|k ks IH]; simpl; [done|].
  destruct (q k) eqn:E; simpl; [by rewrite IH|]. by rewrite (H k E), IH.
Qed.

Lemma yoy_bookings_total (rows : list Row) :
  list_sum (map snd (yoy rows))
  = length (List.filter
              (fun r => bool_decide (is_Some (Month r)) && bool_decide (is_Some (ADR r)))
              rows).
Proof.
  rewrite yoy_calendar, map_map. unfold yoy_row. cbn [snd].
  rewrite (list_sum_filter_nonzero
             (fun m => series_count (map ADR (month_rows rows m)))).
  2:{ intros m Hm. apply negb_false_iff, Nat.eqb_eq, length_zero_iff_nil in Hm.
      by rewrite Hm. }
  erewrite map_ext; [|intros m; apply series_count_filter].
  unfold month_rows.
  apply (groups_partition Month (fun m r => bool_decide (Month r = Some m))).
  - intros k r. apply bool_decide_eq_true.
  - apply MONTHS_NoDup.
  - intros r k _. apply Month_In.
Qed.

Lemma filtered_has_date (data : DataFrame) (s e : date) (r : Row) :
  In r (df_rows (filtered data s e)) -> is_Some (check_in r).
Proof.
  rewrite filtered_rows, filter_In, filter_mask_spec.
  intros (_ & d & Hd & _). eauto.
Qed.

Lemma Month_is_Some (r : Row) : is_Some (Month r) <-> is_Some (check_in r).
Proof. unfold Month. destruct (check_in r); simpl; split; intros [? ?]; eauto; done. Qed.

Lemma count_dated_ADR (data : DataFrame) (s e : date) :
  length (List.filter
            (fun r => bool_decide (is_Some (Month r)) && bool_decide (is_Some (ADR r)))
            (df_rows (filtered data s e)))
  = series_count (map ADR (df_rows (filtered data s e))).
Proof.
  rewrite (series_count_filter (B:=Q) ADR). f_equal. apply filter_ext_in'. intros r Hr.
  rewrite bool_decide_eq_true_2; [done|].
  by apply Month_is_Some, (filtered_has_date data s e).
Qed.

End Totals.

(** The booking counts of the year-over-year chart add up to the number of
    filtered rows that have an ADR: a row is counted in one month, and no
    row with an ADR is lost. *)
Theorem yoy_bookings_cover_filtered
    (data : Pandas.DataFrame) (start_date end_date : date) :
  list_sum (map snd (App.yoy (Pandas.df_rows (App.filtered data start_date end_date))))
  = Pandas.series_count (map ADR (Pandas.df_rows (App.filtered data start_date end_date))).
Proof. rewrite yoy_bookings_total. apply count_dated_ADR. Qed.

Section Chart1.
Import Py Pandas App.

Lemma string_compare_eq (a b : string) : String.compare a b = Eq <-> a = b.
Proof.
  split; [apply String.compare_eq_iff | intros ->; apply string_compare_refl].
Qed.

Lemma key3_compare_eq (a b : string * Z * string) : key3_compare a b = Eq <-> a = b.
Proof.
  destruct a as [[m1 d1] t1], b as [[m2 d2] t2]. unfold key3_compare. cbn [fst snd].
  destruct (String.compare m1 m2) eqn:Em.
  - apply string_compare_eq in Em as ->.
    destruct (Z.compare_spec d1 d2) as [->|?|?].
    + rewrite string_compare_eq. split; congruence.
    + split; [done | intros [= ->]; lia].
    + split; [done | intros [= ->]; lia].
  - split; [done | intros [= -> _ _]; by rewrite string_compare_refl in Em].
  - split; [done | intros [= -> _ _]; by rewrite string_compare_refl in Em].
Qed.

Lemma key3_is_Some (r : Row) : is_Some (key3 r) <-> is_Some (check_in r).
Proof.
  unfold key3, Month, Day. destruct (check_in r); simpl; split; intros [? ?]; eauto; done.
Qed.

Lemma grouped1_keys (rows : list Row) :
  map (fun p => fst (fst p)) (grouped1 rows) = map fst (groupby key3_compare key3 rows).
Proof. unfold grouped1. by rewrite map_map. Qed.

Lemma grouped1_bookings (rows : list Row) :
  list_sum (map snd (grouped1 rows))
  = length (List.filter
              (fun r => bool_decide (is_Some (key3 r)) && bool_decide (is_Some (ADR r)))
              rows).
Proof.
  unfold grouped1. rewrite map_map. cbn [snd].
  erewrite map_ext; [|intros g; apply (series_count_filter (B:=Q) ADR)].
  apply (groupby_partition key3_compare key3_compare_eq).
Qed.

End Chart1.

(** Chart 1 has one point per (month, day, room type) of the filtered table:
    no key occurs twice, every point stands for a row of the table with
    that month, day and room type, and the booking counts of the points add
    up to the number of filtered rows that have an ADR. *)
Theorem grouped1_points_cover_filtered
    (data : Pandas.DataFrame) (start_date end_date : date) :
  let rows := Pandas.df_rows (App.filtered data start_date end_date) in
  List.NoDup (map (fun p => fst (fst p)) (App.grouped1 rows)) /\
  (forall (m : string) (d : Z) (t : string) (adr : Py.float) (n : nat),
     In (m, d, t, adr, n) (App.grouped1 rows) ->
     exists r, In r rows /\ Month r = Some m /\ Day r = Some d /\ Room_Type r = t) /\
  list_sum (map snd (App.grouped1 rows)) = Pandas.series_count (map ADR rows).
Proof.
  intros rows. split; [|split].
  - rewrite grouped1_keys. apply (groupby_keys_NoDup _ key3_compare_eq).
  - intros m d t adr n H. unfold App.grouped1 in H.
    apply in_map_iff in H as ([k g] & [= Ek _ _] & Hg). cbn [fst] in Ek. subst k.
    apply (groupby_In _ key3_compare_eq) in Hg as (_ & r & Hr & Hk).
    exists r. split; [done|]. unfold App.key3 in Hk.
    destruct (Month r) as [m'|], (Day r) as [d'|]; try done.
    by injection Hk as -> -> ->.
  - rewrite grouped1_bookings, (series_count_filter (B:=Q) ADR).
    f_equal. apply filter_ext_in'. intros r Hr.
    rewrite bool_decide_eq_true_2; [done|].
    by apply key3_is_Some, (filtered_has_date data start_date end_date).
Qed.

(* ===================================================================== *)
(** * Chart 4: sliders and forecasts *)
(* ===================================================================== *)

Section Chart4.
Import Py Pandas App.

Lemma for_each_shown {A : Type} (l : list A) (body : A -> M unit)
    (evs : A -> list Event) (s : State) :
  (forall a s', body a s'
                = Returns tt (mkState (heap s') (env s') (shown s' ++ evs a))) ->
  for_each l body s
  = Returns tt (mkState (heap s) (env s) (shown s ++ concat (map evs l))).
Proof.
  intros H. revert s. induction l as [|a l IH]; intros s; simpl.
  - rewrite app_nil_r. by destruct s.
  - erewrite bind_Returns; [|apply H]. rewrite IH. cbn [heap env shown].
    by rewrite <- app_assoc.
Qed.

Lemma chart4_run (slider_input : string -> float) (s : State) (lf : loc) (f : DataFrame) :
  env s !! "filtered" = Some lf -> heap s !! lf = Some f ->
  chart4 slider_input s
  = Returns tt
      (mkState (heap s) (env s)
         (shown s
          ++ [ Subheader "🎯 Adjust ADR and Forecast Revenue";
               Markdown "### 🛏️ Adjust ADR by Room Type" ]
          ++ concat (map (chart4_row_shown slider_input) (grouped4 (df_rows f))))).
Proof.
  intros H1 H2. unfold chart4.
  erewrite bind_Returns; [|reflexivity].
  erewrite bind_Returns; [|by apply (load_Returns _ _ lf f)].
  erewrite bind_Returns; [|reflexivity].
  erewrite (for_each_shown _ _ (chart4_row_shown slider_input)).
  - cbn [heap env shown]. by rewrite <- !app_assoc.
  - intros row s'. unfold chart4_row_shown. cbv zeta.
    erewrite bind_Returns; [|reflexivity].
    unfold show. cbn [heap env shown]. by rewrite <- app_assoc.
Qed.



End Chart4.

Section Chart4Facts.
Import Py Pandas App.

Lemma omap_Some_map {A B : Type} (f : A -> B) (l : list A) :
  omap (fun a => Some (f a)) l = map f l.
Proof. induction l as [|a l IH]; simpl; [done | f_equal; exact IH]. Qed.

Lemma grouped4_rooms (rows : list Row) :
  map (fun row => fst (fst (fst row))) (grouped4 rows)
  = isort (key_leb String.compare) (unique String.compare (map Room_Type rows)).
Proof.
  unfold grouped4, groupby. rewrite !map_map. cbn [fst].
  by rewrite map_id, omap_Some_map.
Qed.

(** A list without repetition over two values. *)
Lemma NoDup_two (a b : string) (l : list string) :
  List.NoDup l -> (forall x, In x l -> x = a \/ x = b) ->
  l = [] \/ l = [a] \/ l = [b] \/ l = [a; b] \/ l = [b; a].
Proof.
  intros Hnd H. destruct l as [|x [|y [|z l]]].
  - tauto.
  - destruct (H x) as [->| ->]; [by left | tauto..].
  - apply List.NoDup_cons_iff in Hnd as [Hx _].
    destruct (H x) as [->| ->]; [by left | |]; destruct (H y) as [->| ->];
      try (by right; left); try tauto; exfalso; apply Hx; by left.
  - exfalso. apply List.NoDup_cons_iff in Hnd as [Hx Hnd].
    apply List.NoDup_cons_iff in Hnd as [Hy _].
    destruct (H x) as [->| ->]; [by left | |]; destruct (H y) as [->| ->];
      try (by right; left); destruct (H z) as [->| ->];
      try (by right; right; left); simpl in *; tauto.
Qed.

Lemma existsb_room_In (rows : list Row) (t : string) :
  existsb (fun r => String.eqb (Room_Type r) t) rows = true
  <-> In t (unique String.compare (map Room_Type rows)).
Proof.
  rewrite existsb_exists, unique_In, in_map_iff. split.
  - intros (r & Hr & E). apply String.eqb_eq in E. eauto.
  - intros (r & E & Hr). exists r. split; [done|]. by apply String.eqb_eq.
Qed.

Lemma bool_as_member (b : bool) (t : string) (l : list string) :
  (b = true <-> In t l) -> b = existsb (String.eqb t) l.
Proof.
  intros H. destruct (existsb (String.eqb t) l) eqn:E.
  - apply H. apply existsb_exists in E as (x & Hx & Ex).
    apply String.eqb_eq in Ex. by subst.
  - destruct b; [|done]. rewrite <- E. symmetry. apply existsb_exists.
    exists t. split; [by apply H | apply String.eqb_refl].
Qed.

Lemma filtered_room_types (data : DataFrame) (s e : date) (t : string) :
  In t (unique String.compare (map Room_Type (df_rows (filtered data s e)))) ->
  t = BATHTUB \/ t = SHOWER.
Proof.
  rewrite unique_In, in_map_iff. intros (r & <- & Hr).
  rewrite filtered_rows, filter_In, filter_mask_spec in Hr.
  destruct Hr as (_ & d & _ & _ & _ & H). tauto.
Qed.


End Chart4Facts.

(** Chart 4 shows one slider per room type of the filtered table, at most
    two, the Bathtub rooms before the Shower rooms. *)
Theorem chart4_room_types
    (data : Pandas.DataFrame) (start_date end_date : date) :
  let rows := Pandas.df_rows (App.filtered data start_date end_date) in
  map (fun row => fst (fst (fst row))) (App.grouped4 rows)
  = List.filter (fun t => existsb (fun r => String.eqb (Room_Type r) t) rows)
                [BATHTUB; SHOWER].
Proof.
  intros rows. rewrite grouped4_rooms. cbn [List.filter].
  rewrite (bool_as_member _ _ _ (existsb_room_In rows BATHTUB)).
  rewrite (bool_as_member _ _ _ (existsb_room_In rows SHOWER)).
  destruct (NoDup_two BATHTUB SHOWER
              (Pandas.unique String.compare (map Room_Type rows)))
    as [E|[E|[E|[E|E]]]];
    [apply unique_NoDup | apply filtered_room_types | rewrite E; by vm_compute..].
Qed.

Section Chart4Events.
Import Py Pandas App.


End Chart4Events.





(* ===================================================================== *)
(** * Chart 5: the bins and their labels *)
(* ===================================================================== *)

Section Bins.
Import Py Pandas App.






End Bins.

Section Chart5Run.
Import Py Pandas App.







Lemma cut_value_single (b : bound) (right include_lowest : bool) (v : float) :
  cut_value [b] [] right include_lowest v = None.
Proof.
  destruct v as [x|]; [|done]. unfold cut_value. cbn [length].
  destruct (include_lowest && beq (hd BNaN [b]) x); [done|].
  simpl. by destruct (if right then blt b x else ble b x).
Qed.

End Chart5Run.



(** When all ADRs of the table are equal, the loop adds no edge: there is
    one edge and no bin, and no booking gets a bin. *)
Theorem chart5_single_ADR_no_bin
    (adr : list Py.float) (lo hi : Q) (fuel : nat) :
  Pandas.series_min adr = Some lo -> Pandas.series_max adr = Some hi ->
  (hi <= lo)%Q ->
  App.bin_edges (S fuel) adr = Some [Some lo] /\
  App.bin_labels [Some lo] = Pandas.Ok [] /\
  exists c,
    Pandas.cut adr (map Pandas.of_float [Some lo]) [] true true = Pandas.Ok c /\
    Pandas.categories c = [] /\
    Forall (fun v => v = None) (Pandas.values c).
Proof.
  intros Hmin Hmax Hle. split; [|split; [done|]].
  - unfold App.bin_edges. rewrite Hmin, Hmax. simpl.
    destruct (Qltb_spec lo hi); [lra | done].
  - eexists. split; [reflexivity|]. split; [done|]. cbn [Pandas.values].
    apply List.Forall_forall. intros v Hv. apply in_map_iff in Hv as (x & <- & _).
    apply cut_value_single.
Qed.

Lemma chart5_single_ADR_no_bin_witness :
  App.bin_edges 1 [Some 900%Q; Py.NaN; Some 900%Q] = Some [Some 900%Q] /\
  App.bin_labels [Some 900%Q] = Pandas.Ok [] /\
  exists c,
    Pandas.cut [Some 900%Q; Py.NaN; Some 900%Q]
               (map Pandas.of_float [Some 900%Q]) [] true true = Pandas.Ok c /\
    Pandas.categories c = [] /\
    Forall (fun v => v = None) (Pandas.values c).
Proof.
  apply (chart5_single_ADR_no_bin [Some 900%Q; Py.NaN; Some 900%Q] 900%Q 900%Q 0%nat);
    [reflexivity | reflexivity | discriminate].
Defined.



(* ===================================================================== *)
(** * One chart per run at most *)
(* ===================================================================== *)

Section OneChart.
Import Py Pandas App.

Lemma count_charts_app (l1 l2 : list Event) :
  count_charts (l1 ++ l2) = (count_charts l1 + count_charts l2)%nat.
Proof. unfold count_charts. by rewrite List.filter_app, length_app. Qed.

Lemma count_charts_none (l : list Event) :
  Forall (fun ev => is_chart ev = false) l -> count_charts l = 0%nat.
Proof.
  intros H. unfold count_charts. rewrite filter_false; [done|].
  by apply List.Forall_forall.
Qed.

Lemma dispatch_state_no_chart (rows : list Row) (s e : date) :
  count_charts (shown (dispatch_state rows s e)) = 0%nat.
Proof. reflexivity. Qed.

Lemma chart2_shown_count (observed : bool) (f : DataFrame) (m : string) :
  (count_charts (chart2_shown observed f m) <= 1)%nat.
Proof.
  unfold chart2_shown. cbv zeta.
  destruct (negb _); [destruct (Nat.ltb _ _)|]; cbn; lia.
Qed.

Lemma chart4_rows_no_chart (slider_input : string -> float)
    (l : list (string * float * nat * Q)) :
  count_charts (concat (map (chart4_row_shown slider_input) l)) = 0%nat.
Proof.
  induction l as [|row l IH]; [done|].
  cbn [map concat]. rewrite count_charts_app, IH. reflexivity.
Qed.

Lemma chart5_shown (observed : bool) (fuel : nat) (s : State) (lf : loc) (f : DataFrame) :
  env s !! "filtered" = Some lf -> heap s !! lf = Some f ->
  exists evs,
    shown (final (chart5 observed fuel s))
    = shown s ++ Subheader "📦 ADR Bin (5%) Distribution by Room Type" :: evs /\
    (count_charts evs <= 1)%nat.
Proof.
  intros H1 H2. unfold chart5.
  erewrite final_Returns; [|reflexivity].
  erewrite final_Returns; [|by apply (load_Returns _ _ lf f)].
  destruct (bin_edges fuel (map ADR (df_rows f))) as [edges|];
    [|exists []; split; [done | cbn; lia]].
  destruct (bin_labels edges) as [ls|msg]; [|exists []; split; [done | cbn; lia]].
  cbn [lift]. erewrite final_Returns; [|reflexivity].
  destruct (cut (map ADR (df_rows f)) (map of_float edges) ls true true) as [c|msg];
    [|exists []; split; [done | cbn; lia]].
  cbn [lift]. erewrite final_Returns; [|reflexivity].
  erewrite final_Returns; [|by apply (setitem_var_Returns _ _ _ _ lf f)].
  erewrite final_Returns.
  2:{ apply (load_Returns _ _ lf (setitem f "ADR_BIN_5P" c)); cbn [env heap]; [done|].
      apply list_lookup_insert_eq. by apply lookup_lt_Some in H2. }
  eexists [_]. split.
  - cbn [show final shown]. by rewrite <- app_assoc.
  - cbn. lia.
Qed.

Lemma chart1_run (s : State) (lf : loc) (f : DataFrame) :
  env s !! "filtered" = Some lf -> heap s !! lf = Some f ->
  chart1 s
  = Returns tt
      (mkState (heap s) (env s)
         (shown s ++ [ Subheader "Monthly ADR Distribution by Room Type";
                       PlotlyChart (Scatter (grouped1 (df_rows f))) ])).
Proof.
  intros H1 H2. unfold chart1.
  erewrite bind_Returns; [|reflexivity].
  erewrite bind_Returns; [|by apply (load_Returns _ _ lf f)].
  unfold show. cbn [heap env shown]. by rewrite <- app_assoc.
Qed.

Lemma chart3_run (s : State) (lf : loc) (f : DataFrame) :
  env s !! "filtered" = Some lf -> heap s !! lf = Some f ->
  chart3 s
  = Returns tt
      (mkState (heap s) (env s)
         (shown s ++ [ Subheader "Year-over-Year ADR and Booking Trends";
                       PlotlyChart (DualAxis (yoy (df_rows f))) ])).
Proof.
  intros H1 H2. unfold chart3.
  erewrite bind_Returns; [|reflexivity].
  erewrite bind_Returns; [|by apply (load_Returns _ _ lf f)].
  unfold show. cbn [heap env shown]. by rewrite <- app_assoc.
Qed.

Lemma routine_one_chart (observed : bool) (fuel : nat) (rows : list Row)
    (inp : Inputs) (s e : date) :
  (count_charts (shown (final (routine observed fuel inp (dispatch_state rows s e))))
   <= 1)%nat.
Proof.
  destruct (routine_cases observed fuel inp)
    as [[Hc ->]|[[Hc ->]|[[Hc ->]|[[Hc ->]|[[Hc ->]|[Hc ->]]]]]].
  - rewrite (chart1_run _ 1%nat (filtered (mkDF rows []) s e)) by done.
    cbn [final shown]. rewrite count_charts_app, dispatch_state_no_chart. cbn. lia.
  - rewrite (chart2_run _ _ _ 1%nat (filtered (mkDF rows []) s e)) by done.
    cbn [final shown]. rewrite count_charts_app, dispatch_state_no_chart.
    pose proof (chart2_shown_count observed (filtered (mkDF rows []) s e)
                  (selected_month inp)). lia.
  - rewrite (chart3_run _ 1%nat (filtered (mkDF rows []) s e)) by done.
    cbn [final shown]. rewrite count_charts_app, dispatch_state_no_chart. cbn. lia.
  - rewrite (chart4_run _ _ 1%nat (filtered (mkDF rows []) s e)) by done.
    cbn [final shown].
    rewrite !count_charts_app, dispatch_state_no_chart, chart4_rows_no_chart.
    cbn. lia.
  - destruct (chart5_shown observed fuel (dispatch_state rows s e) 1%nat
                (filtered (mkDF rows []) s e)) as (evs & -> & Hn); [done..|].
    rewrite count_charts_app, dispatch_state_no_chart. cbn. 
    change (length (List.filter is_chart evs)) with (count_charts evs). lia.
  - cbn [mret M_ret final]. rewrite dispatch_state_no_chart. lia.
Qed.

End OneChart.

(** Whatever the input, a run ends with at most one chart shown. *)
Theorem run_shows_at_most_one_chart
    (observed : bool) (fuel : nat) (rows : list Row) (inp : App.Inputs) :
  (count_charts (App.shown (App.final (App.run observed fuel rows inp))) <= 1)%nat.
Proof.
  destruct (App.selected_dates inp) as [d|[|a [|b [|c ds]]]] eqn:Hd;
    try (rewrite run_reject; [cbn; lia | intros s e H; rewrite H in Hd; discriminate Hd]).
  rewrite (run_pair _ _ _ _ a b Hd), dispatch_routine.
  apply routine_one_chart.
Qed.

(* ===================================================================== *)
(** * Chart 2: the buckets share the month's revenue *)
(* ===================================================================== *)

Section Revenue.
Import Py Pandas App.

Lemma series_sum_cons (r : Row) (l : list Row) :
  (series_sum (map total_price (r :: l))
   == price_or_zero r + series_sum (map total_price l))%Q.
Proof.
  unfold series_sum, dropna, price_or_zero. simpl.
  destruct (total_price r) as [q|]; simpl.
  - reflexivity.
  - change (Qsum (omap id (map total_price l)) == 0 + Qsum (omap id (map total_price l)))%Q.
    ring.
Qed.

Lemma revenue_cons (r : Row) (rows : list Row) (l : string) :
  (revenue (r :: rows) l
   == (if bool_decide (ADR_Group (ADR r) = Some l) then price_or_zero r else 0)
      + revenue rows l)%Q.
Proof.
  unfold revenue, bucket_rows. cbn [List.filter].
  destruct (bool_decide (ADR_Group (ADR r) = Some l)).
  - apply series_sum_cons.
  - ring.
Qed.

Lemma ADR_Group_positive (r : Row) :
  (positive_ADR r = true /\ exists l, In l labels /\ ADR_Group (ADR r) = Some l) \/
  (positive_ADR r = false /\ ADR_Group (ADR r) = None).
Proof.
  unfold positive_ADR. destruct (ADR r) as [x|]; [|by right].
  rewrite ADR_Group_cases. destruct (Qltb 0 x); [left | by right].
  split; [done|].
  destruct (Qltb 800 x); [|exists "<800"; simpl; tauto].
  destruct (Qltb 1000 x); [|exists "800-1000"; simpl; tauto].
  destruct (Qltb 1200 x); [exists ">1200" | exists "1000-1200"]; simpl; tauto.
Qed.

Lemma buckets_total (rows : list Row) :
  (Qsum (map snd (buckets false rows))
   == Qsum (map price_or_zero (List.filter positive_ADR rows)))%Q.
Proof.
  unfold buckets, labels. cbn [map snd Qsum fold_right].
  induction rows as [|r rows IH].
  - vm_compute. reflexivity.
  - rewrite !revenue_cons.
    cbn [List.filter].
    destruct (ADR_Group_positive r) as [[-> (l & Hl & ->)]|[-> ->]].
    + cbn [map Qsum fold_right]. rewrite <- IH.
      simpl in Hl. destruct Hl as [<-|[<-|[<-|[<-|[]]]]];
        repeat case_bool_decide; try discriminate; try done; ring.
    + rewrite <- IH.
      repeat case_bool_decide; try discriminate; ring.
Qed.

End Revenue.

(** The revenues of the four buckets of chart 2 add up to the Total price of
    the month's rows whose ADR is a positive number: such a row is counted
    in one bucket, and a row with a null ADR or an ADR of 0 or less in none. *)
Theorem bucket_revenues_cover_positive_ADR
    (df : Pandas.DataFrame) (selected_month : string) :
  let rows := Pandas.df_rows (App.month_data df selected_month) in
  (Pandas.Qsum (map snd (buckets false rows))
   == Pandas.Qsum (map price_or_zero (List.filter positive_ADR rows)))%Q /\
  App.top3 false (App.month_table df selected_month)
  = Pandas.head 3
      (Pandas.sort_values Qle_bool (fun g => Some (snd g)) false (buckets false rows)).
Proof.
  intros rows. split; [apply buckets_total | apply top3_buckets].
Qed.

(* ===================================================================== *)
(** * The text of a Total price cell *)
(* ===================================================================== *)

Section StripPrice.
Import Py.

Lemma prefix_one (c d : ascii) (r : string) :
  String.prefix (String c "") (String d r) = Ascii.eqb c d.
Proof.
  simpl. destruct (ascii_dec c d) as [->|Hne].
  - rewrite Ascii.eqb_refl. by destruct r.
  - symmetry. by apply Ascii.eqb_neq.
Qed.

Lemma replace_commas (s : string) : replace "," "" s = without_commas s.
Proof.
  unfold replace. induction s as [|c s IH]; [done|].
  change (replace_from "," "" 0 (String c s))
    with (if String.prefix "," (String c s)
          then "" +:+ replace_from "," "" 0 s
          else String c (replace_from "," "" 0 s)).
  rewrite prefix_one, IH, append_nil. simpl.
  rewrite (Ascii.eqb_sym c ","). done.
Qed.

Lemma without_commas_clean (s : string) : contains "," (without_commas s) = false.
Proof.
  induction s as [|c s IH]; [done|].
  simpl. destruct (Ascii.eqb c ",") eqn:E; [done|].
  rewrite contains_cons, prefix_one, IH, Ascii.eqb_sym, E. done.
Qed.

Lemma contains_one_cons (c d : ascii) (r : string) :
  contains (String c "") (String d r) = false ->
  Ascii.eqb c d = false /\ contains (String c "") r = false.
Proof.
  rewrite contains_cons, prefix_one. by intros [? ?]%orb_false_iff.
Qed.

(** A text without the letter T holds no occurrence of the prefix. *)
Lemma replace_prefix_absent (t : string) :
  contains "T" t = false -> replace_from "THB " "" 0 t = t.
Proof.
  induction t as [|c t IH]; intros H; [done|].
  apply contains_one_cons in H as [Hc Ht].
  change (replace_from "THB " "" 0 (String c t))
    with (if String.prefix "THB " (String c t)
          then "" +:+ replace_from "THB " "" 3 t
          else String c (replace_from "THB " "" 0 t)).
  assert (Hp : String.prefix "THB " (String c t) = false).
  { change (String.prefix "THB " (String c t))
      with (if ascii_dec "T" c then String.prefix "HB " t else false).
    destruct (ascii_dec "T" c) as [<-|?]; [|done].
    by rewrite Ascii.eqb_refl in Hc. }
  by rewrite Hp, IH.
Qed.

End StripPrice.

(** The text handed to the number conversion of line 16 holds no comma; and a
    price written as the prefix "THB " followed by digits, commas and
    whatever else without the letter T comes out as that text without its
    commas. *)
Theorem strip_price_prefixed :
  (forall text : string, Py.contains "," (strip_price text) = false) /\
  (forall t : string,
     Py.contains "T" t = false ->
     strip_price ("THB " +:+ t) = without_commas t).
Proof.
  split.
  - intros text. unfold strip_price. rewrite replace_commas.
    apply without_commas_clean.
  - intros t Ht. unfold strip_price. rewrite replace_commas. f_equal.
    unfold Py.replace.
    change (Py.replace_from "THB " "" 0 ("THB " +:+ t))
      with (if String.prefix "THB " ("THB " +:+ t)
            then "" +:+ Py.replace_from "THB " "" 0 t
            else String "T" (Py.replace_from "THB " "" 0 ("HB " +:+ t))).
    assert (Hp : String.prefix "THB " ("THB " +:+ t) = true)
      by (apply prefix_iff; by exists t).
    rewrite Hp, append_nil. by apply replace_prefix_absent.
Qed.

Lemma strip_price_prefixed_witness :
  strip_price ("THB " +:+ "1,234,567.50") = without_commas "1,234,567.50".
Proof.
  apply (proj2 strip_price_prefixed "1,234,567.50"). reflexivity.
Defined.

(* ===================================================================== *)
(** * Further consequences *)
(* ===================================================================== *)

Lemma chart2_observed_groups_witness :
  let f := App.filtered (Pandas.mkDF two_januaries [])
             (mkdate 2023 January 1) (mkdate 2024 December 31) in
  let t := App.top3 true (App.month_table f "Feb") in
  exists st,
    App.run true 0 two_januaries (ask_top3 "Feb") = App.Returns tt st /\
    (Pandas.df_rows (App.month_data f "Feb") = [] ->
     In (App.Warning "No data available.") (App.shown st) /\
     Forall (fun ev => App.is_chart ev = false) (App.shown st)) /\
    ((0 < length t < 3)%nat ->
     In (App.PlotlyChart (App.Pie t)) (App.shown st) /\
     In (App.Caption ("⚠️ Only " +:+ pretty (length t) +:+ " ADR groups found for "
                      +:+ "Feb" +:+ ".")) (App.shown st)).
Proof.
  apply (chart2_observed_groups 0 two_januaries (ask_top3 "Feb")
           (mkdate 2023 January 1) (mkdate 2024 December 31)); reflexivity.
Defined.

(** A row reaches the charts only if its Room text mentions a shower or a
    bathtub, in whatever letter case; with a check-in date inside the range,
    such a row always does. *)
Theorem filtered_rooms_mention_bath
    (data : Pandas.DataFrame) (start_date end_date : date) (r : Row) :
  In r (Pandas.df_rows (App.filtered data start_date end_date)) <->
  In r (Pandas.df_rows data) /\
  (exists d, check_in r = Some d /\ date_le start_date d /\ date_le d end_date) /\
  (occurs_nocase "shower" (room r) \/ occurs_nocase "bathtub" (room r)
   \/ occurs_nocase "bath tub" (room r)).
Proof.
  rewrite filtered_rows, filter_In, filter_mask_spec.
  assert (Hroom : (Room_Type r = SHOWER \/ Room_Type r = BATHTUB) <->
                  (occurs_nocase "shower" (room r) \/ occurs_nocase "bathtub" (room r)
                   \/ occurs_nocase "bath tub" (room r))).
  { unfold Room_Type, map_room_type.
    rewrite <- (contains_lower_iff "shower" (room r) eq_refl).
    rewrite <- (contains_lower_iff "bathtub" (room r) eq_refl).
    rewrite <- (contains_lower_iff "bath tub" (room r) eq_refl).
    destruct (Py.contains "shower" (Py.lower (room r)));
    destruct (Py.contains "bathtub" (Py.lower (room r)));
    destruct (Py.contains "bath tub" (Py.lower (room r))); simpl;
      split; intros; try tauto; intuition discriminate. }
  rewrite <- Hroom. split.
  - intros [Hin (d & Hd & H1 & H2 & H3)]. eauto 10.
  - intros (Hin & (d & Hd & H1 & H2) & H3). eauto 10.
Qed.
